(** * Citi Bike dashboard: the aggregation layer of [st_dashboard_Part_2.py]

    A shallow embedding of the data handling of the Streamlit dashboard
    (loading, season derivation, season and rider-type filters, station
    ranking, hourly distribution with its peak, the summary page) and of
    the way the pages touch the two cached data frames.

    Conventions.
    - A pandas cell that may be null (NaN, NaT, None) is an [option].
    - Python integers are [Z]; the values [get_season] can be applied to
      are a small type of Python values, [pyval].
    - A Python exception is a constructor of [exn]; code that can raise
      returns a [result].
    - pandas itself is not part of the repository: [dropna], [isin],
      [groupby(..).size()], [sort_values], [head], [idxmax], [loc] and
      [index[0]] are modelled by their documented behaviour.  The text
      parser behind [pd.to_datetime] is not modelled: a CSV cell of a
      time column is represented by what the parser makes of it. *)

From Stdlib Require Import List ZArith QArith Bool String Ascii Lia.
From Stdlib Require Import DecimalString DecimalPos DecimalZ.
From Stdlib Require Import Permutation Sorted.
Import ListNotations.
Open Scope string_scope.
Open Scope list_scope.
Open Scope Z_scope.

(** ** Python values and exceptions *)

Inductive exn : Type :=
| IndexError
| ValueError
| KeyError.

Inductive result (A : Type) : Type :=
| Ok (a : A)
| Raise (e : exn).
Arguments Ok {A} a.
Arguments Raise {A} e.

Definition is_ok {A : Type} (r : result A) : bool :=
  match r with Ok _ => true | Raise _ => false end.

(** The values a cell of the [month] column can hold when [get_season]
    is applied to it, and a few that it cannot (used for totality). *)
Inductive pyval : Type :=
| PyInt (z : Z)
| PyFloat (q : Q)
| PyNaN
| PyNone
| PyStr (s : string).

(** [v == k] for an integer literal [k]. *)
Definition py_eq_int (v : pyval) (k : Z) : bool :=
  match v with
  | PyInt z => z =? k
  | PyFloat q => Qeq_bool q (inject_Z k)
  | PyNaN | PyNone | PyStr _ => false
  end.

(** [v in [k1, k2, ...]] for a list of integer literals. *)
Definition py_in (v : pyval) (ks : list Z) : bool :=
  existsb (py_eq_int v) ks.

(** ** Data model *)

Record Timestamp : Type := mkTimestamp {
  year : Z; month : Z; day : Z; hour : Z; minute : Z; second : Z
}.

Fixpoint lex_leb (a b : list Z) : bool :=
  match a, b with
  | [], _ => true
  | _ :: _, [] => false
  | x :: a', y :: b' =>
      if x <? y then true else if y <? x then false else lex_leb a' b'
  end.

Definition ts_fields (t : Timestamp) : list Z :=
  [year t; month t; day t; hour t; minute t; second t].

Definition ts_leb (a b : Timestamp) : bool :=
  lex_leb (ts_fields a) (ts_fields b).

(** A cell of a time column in the CSV file, seen through
    [pd.to_datetime(.., errors="coerce")]. *)
Inductive csv_time : Type :=
| TimeText (t : Timestamp)
| Unparsable (s : string)
| Blank.

Definition to_datetime_coerce (c : csv_time) : option Timestamp :=
  match c with
  | TimeText t => Some t
  | Unparsable _ | Blank => None
  end.

(** [pd.to_datetime] on a column that already holds timestamps. *)
Definition to_datetime (c : option Timestamp) : option Timestamp := c.

Record CsvTrip : Type := mkCsvTrip {
  csv_started_at : csv_time;
  csv_start_station_name : option string;
  csv_member_casual : option string
}.

Record TripRow : Type := mkTrip {
  started_at : option Timestamp;
  start_station_name : option string;
  member_casual : option string
}.

Record CsvDay : Type := mkCsvDay {
  csv_date : csv_time;
  csv_bike_rides_daily : option Z;
  csv_avgTemp : option Q
}.

Record WeatherRow : Type := mkDay {
  date : option Timestamp;
  bike_rides_daily : option Z;
  avgTemp : option Q
}.

(** ** pandas primitives *)

Definition notna {A : Type} (c : option A) : bool :=
  match c with Some _ => true | None => false end.

(** The non-null cells of a column, in row order ([Series.dropna]). *)
Fixpoint present {A : Type} (col : list (option A)) : list A :=
  match col with
  | [] => []
  | Some x :: col' => x :: present col'
  | None :: col' => present col'
  end.

(** A cell of a string column as a Python value (null is NaN). *)
Definition str_cell (c : option string) : pyval :=
  match c with Some s => PyStr s | None => PyNaN end.

Definition int_of_cell (v : pyval) : option Z :=
  match v with PyInt z => Some z | _ => None end.

(** [Series.isin(values)] on one cell, for a list of strings. *)
Definition isin (c : pyval) (values : list string) : bool :=
  match c with
  | PyStr s => existsb (String.eqb s) values
  | _ => false
  end.

(** [df[mask]]: the rows whose mask entry is true. *)
Definition mask_rows {A : Type} (mask : list bool) (l : list A) : list A :=
  map snd (filter fst (combine mask l)).

(** [DataFrame.head(n)]; a negative [n] drops the last [-n] rows. *)
Definition head {A : Type} (n : Z) (l : list A) : list A :=
  if 0 <=? n then firstn (Z.to_nat n) l
  else firstn (List.length l - Z.to_nat (- n)) l.

Section Sorting.
Context {A : Type} (le : A -> A -> bool).

Fixpoint insert_sorted (x : A) (l : list A) : list A :=
  match l with
  | [] => [x]
  | y :: l' => if le x y then x :: l else y :: insert_sorted x l'
  end.

(** Insertion sort; rows that compare equal keep their order. *)
Fixpoint sort_by (l : list A) : list A :=
  match l with
  | [] => []
  | x :: l' => insert_sorted x (sort_by l')
  end.
End Sorting.

Section GroupBy.
Context {K : Type} (eqb le : K -> K -> bool).

(** [Series.unique()]: the distinct values in first-seen order. *)
Fixpoint unique (l : list K) : list K :=
  match l with
  | [] => []
  | x :: l' => x :: filter (fun y => negb (eqb x y)) (unique l')
  end.

Definition count_key (k : K) (l : list K) : Z :=
  Z.of_nat (List.length (filter (eqb k) l)).

(** [groupby(col).size()]: null keys are dropped, the groups come in
    ascending key order, each with its row count. *)
Definition groupby_size (col : list (option K)) : list (K * Z) :=
  let keys := present col in
  map (fun k => (k, count_key k keys)) (sort_by le (unique keys)).
End GroupBy.

(** [sort_values(count, ascending=False)] on (key, count) rows.  pandas
    sorts with an unstable quicksort by default, so the order of rows of
    equal count is not fixed by the source; nothing below depends on it. *)
Definition sort_values_desc {K : Type} (rows : list (K * Z)) : list (K * Z) :=
  sort_by (fun a b => snd b <=? snd a) rows.

(** ** Loading *)

(** [df["started_at"] = pd.to_datetime(df["started_at"], errors="coerce")] *)
Definition coerce_started_at (r : CsvTrip) : TripRow :=
  mkTrip (to_datetime_coerce (csv_started_at r))
         (csv_start_station_name r)
         (csv_member_casual r).

Definition load_bike_data (csv : list CsvTrip) : list TripRow :=
  let df := map coerce_started_at csv in
  filter (fun r => notna (started_at r) && notna (start_station_name r)) df.

(** [df["date"] = pd.to_datetime(df["date"], errors="coerce")] *)
Definition coerce_date (r : CsvDay) : WeatherRow :=
  mkDay (to_datetime_coerce (csv_date r))
        (csv_bike_rides_daily r)
        (csv_avgTemp r).

Definition load_daily_weather_data (csv : list CsvDay) : list WeatherRow :=
  let df := map coerce_date csv in
  filter (fun r => notna (date r) && notna (bike_rides_daily r)
                   && notna (avgTemp r)) df.

(** A row of the trip file with both required fields, and a row of the
    daily file with all three. *)
Definition valid_trip (r : CsvTrip) : bool :=
  match csv_started_at r, csv_start_station_name r with
  | TimeText _, Some _ => true
  | _, _ => false
  end.

Definition valid_day (r : CsvDay) : bool :=
  match csv_date r, csv_bike_rides_daily r, csv_avgTemp r with
  | TimeText _, Some _, Some _ => true
  | _, _, _ => false
  end.

(** ** Page "Weather component and bike usage" *)

(** [df_plot = df_weather.copy(); df_plot["date"] = pd.to_datetime(..)] *)
Definition df_plot (df_weather : list WeatherRow) : list WeatherRow :=
  map (fun r => mkDay (to_datetime (date r)) (bike_rides_daily r) (avgTemp r))
      df_weather.

(** The two traces of the figure share the x column; the points are
    drawn in row order. *)
Definition fig (df_weather : list WeatherRow)
  : list (option Timestamp * option Z * option Q) :=
  map (fun r => (date r, bike_rides_daily r, avgTemp r)) (df_plot df_weather).

(** A row of the file as a point of the figure, and the date of a point. *)
Definition csv_point (r : CsvDay) : option Timestamp * option Z * option Q :=
  (to_datetime_coerce (csv_date r), csv_bike_rides_daily r, csv_avgTemp r).

Definition point_date (p : option Timestamp * option Z * option Q)
  : option Timestamp := fst (fst p).

(** The dates of a series are in ascending order. *)
Fixpoint dates_ascending (dates : list (option Timestamp)) : bool :=
  match dates with
  | [] => true
  | d :: dates' =>
      match d, dates' with
      | Some a, Some b :: _ => ts_leb a b && dates_ascending dates'
      | _, [] => true
      | _, _ => false
      end
  end.

(** ** Page "Most popular stations" *)

Definition all_seasons : list string :=
  ["Winter"; "Spring"; "Summer"; "Autumn"].

Definition get_season (m : pyval) : string :=
  if py_in m [12; 1; 2] then "Winter"
  else if py_in m [3; 4; 5] then "Spring"
  else if py_in m [6; 7; 8] then "Summer"
  else "Autumn".

(** [df1["started_at"].dt.month]: NaT gives NaN. *)
Definition month_cell (r : TripRow) : pyval :=
  match to_datetime (started_at r) with
  | Some t => PyInt (month t)
  | None => PyNaN
  end.

Definition season_cell (r : TripRow) : string :=
  get_season (month_cell r).

(** [df1 = df1[df1["season"].isin(season_filter)]].  The trip file has no
    [season] column, so the column is the derived one. *)
Definition filter_season (season_filter : list string) (df1 : list TripRow)
  : list TripRow :=
  mask_rows (map (fun r => isin (PyStr (season_cell r)) season_filter) df1) df1.

(** The options (and the default) of the season selector. *)
Definition season_options (df1 : list TripRow) : list string :=
  sort_by String.leb (unique String.eqb (map season_cell df1)).

Definition station_counts (df : list TripRow) : list (string * Z) :=
  groupby_size String.eqb String.leb
    (map start_station_name
         (filter (fun r => notna (start_station_name r)) df)).

(** The ranking with [head(n)]; the page uses [n = 20]. *)
Definition top_stations (n : Z) (df1 : list TripRow) : list (string * Z) :=
  head n (sort_values_desc (station_counts df1)).

Definition top20 (df1 : list TripRow) : list (string * Z) :=
  top_stations 20 df1.

Definition stations_page (df_bike : list TripRow) (season_filter : list string)
  : result (list (string * Z)) :=
  Ok (top20 (filter_season season_filter df_bike)).

(** ** Page "Peak hours and demand" *)

Definition user_options (df_bike : list TripRow) : list string :=
  sort_by String.leb (unique String.eqb (present (map member_casual df_bike))).

Definition df2 (df_bike : list TripRow) (user_filter : list string)
  : list TripRow :=
  mask_rows (map (fun r => isin (str_cell (member_casual r)) user_filter)
                 df_bike) df_bike.

(** [df2["started_at"].dt.hour]: NaT gives NaN. *)
Definition hour_cell (r : TripRow) : pyval :=
  match started_at r with
  | Some t => PyInt (hour t)
  | None => PyNaN
  end.

(** The hour values of a trip table, one per row with a timestamp. *)
Definition hours_of (df : list TripRow) : list Z :=
  present (map (fun r => option_map hour (started_at r)) df).

(** The station names of a trip table, one per row that has one. *)
Definition stations_of (df : list TripRow) : list string :=
  present (map start_station_name df).

(** A row of [hourly]: its index label and the two columns. *)
Record HourlyRow : Type := mkHourly {
  h_label : nat; h_hour : Z; h_trips : Z
}.

(** [reset_index(name="trips")]: labels 0, 1, ... in row order. *)
Definition reset_index (groups : list (Z * Z)) : list HourlyRow :=
  map (fun p => mkHourly (fst p) (fst (snd p)) (snd (snd p)))
      (combine (seq 0 (List.length groups)) groups).

Definition hourly_of (hour_column : list pyval) : list HourlyRow :=
  sort_by (fun a b => h_hour a <=? h_hour b)
          (reset_index
             (groupby_size Z.eqb Z.leb (map int_of_cell hour_column))).

Definition hourly (df2 : list TripRow) : list HourlyRow :=
  hourly_of (map hour_cell df2).

(** The first row holding the maximum of [trips]. *)
Fixpoint first_max (rows : list HourlyRow) : option HourlyRow :=
  match rows with
  | [] => None
  | r :: rows' =>
      match first_max rows' with
      | Some r' => if h_trips r' <=? h_trips r then Some r else Some r'
      | None => Some r
      end
  end.

(** [Series.idxmax()]: the label of the first maximum; an empty series
    raises ValueError. *)
Definition idxmax (rows : list HourlyRow) : result nat :=
  match first_max rows with
  | Some r => Ok (h_label r)
  | None => Raise ValueError
  end.

(** [hourly.loc[label]] *)
Definition loc (rows : list HourlyRow) (label : nat) : result HourlyRow :=
  match find (fun r => Nat.eqb (h_label r) label) rows with
  | Some r => Ok r
  | None => Raise KeyError
  end.

Definition peak_row (hourly : list HourlyRow) : result HourlyRow :=
  match idxmax hourly with
  | Ok label => loc hourly label
  | Raise e => Raise e
  end.

(** The page: the two metrics (peak hour, trips at peak) and the chart. *)
Definition peak_metrics (h : list HourlyRow)
  : result (Z * Z * list (Z * Z)) :=
  match peak_row h with
  | Ok r => Ok (h_hour r, h_trips r, map (fun x => (h_hour x, h_trips x)) h)
  | Raise e => Raise e
  end.

Definition peak_page (df_bike : list TripRow) (user_filter : list string)
  : result (Z * Z * list (Z * Z)) :=
  peak_metrics (hourly (df2 df_bike user_filter)).

(** ** Page "Recommendations" *)

Definition total_trips (df_bike : list TripRow) : Z :=
  Z.of_nat (List.length df_bike).

(** [Index[0]]: IndexError on an empty index. *)
Definition index0 {A : Type} (index : list A) : result A :=
  match index with
  | x :: _ => Ok x
  | [] => Raise IndexError
  end.

Definition top_station (df_bike : list TripRow) : result string :=
  index0 (map fst (sort_values_desc (station_counts df_bike))).

Definition recommendations_page (df_bike : list TripRow)
  : result (Z * string) :=
  let total := total_trips df_bike in
  match top_station df_bike with
  | Ok name => Ok (total, name)
  | Raise e => Raise e
  end.

(** ** The cached frames and the working copies of the pages

    The script keeps two data frames for its whole run, [df_bike] and
    [df_weather].  Data frames are mutable objects: column assignment
    changes the frame it is applied to, for every name that refers to
    it.  A store of frames, addressed by location, makes that explicit;
    [copy] and row selection allocate a new frame. *)

Inductive Table : Type :=
| Trips (rows : list TripRow)
| Days (rows : list WeatherRow).

(** A frame: the columns read from the file and the columns a page has
    added ([month], [season], [hour]), by name. *)
Record Frame : Type := mkFrame {
  base : Table;
  derived : list (string * list pyval)
}.

Definition Store : Type := list Frame.

Definition M (A : Type) : Type := Store -> result A * Store.

Definition ret {A : Type} (a : A) : M A := fun s => (Ok a, s).

Definition bind {A B : Type} (m : M A) (k : A -> M B) : M B :=
  fun s =>
    match m s with
    | (Ok a, s') => k a s'
    | (Raise e, s') => (Raise e, s')
    end.

Notation "x <- m ;; k" := (bind m (fun x => k))
  (at level 61, m at next level, right associativity).
Notation "m ;;; k" := (bind m (fun _ => k))
  (at level 61, right associativity).

Definition lift {A : Type} (r : result A) : M A := fun s => (r, s).

Fixpoint update_nth {A : Type} (n : nat) (x : A) (l : list A) : list A :=
  match l, n with
  | [], _ => []
  | _ :: l', O => x :: l'
  | y :: l', S n' => y :: update_nth n' x l'
  end.

Definition read (l : nat) : M Frame :=
  fun s =>
    match nth_error s l with
    | Some f => (Ok f, s)
    | None => (Raise KeyError, s)
    end.

Definition alloc (f : Frame) : M nat :=
  fun s => (Ok (List.length s), s ++ [f]).

(** In-place change of the frame at [l]. *)
Definition update (l : nat) (g : Frame -> result Frame) : M unit :=
  fun s =>
    match nth_error s l with
    | Some f =>
        match g f with
        | Ok f' => (Ok tt, update_nth l f' s)
        | Raise e => (Raise e, s)
        end
    | None => (Raise KeyError, s)
    end.

(** [df.copy()] *)
Definition copy (l : nat) : M nat :=
  f <- read l ;; alloc f.

Definition trip_rows (f : Frame) : result (list TripRow) :=
  match base f with
  | Trips rows => Ok rows
  | Days _ => Raise KeyError
  end.

Definition day_rows (f : Frame) : result (list WeatherRow) :=
  match base f with
  | Days rows => Ok rows
  | Trips _ => Raise KeyError
  end.

Definition has_column (name : string) (f : Frame) : bool :=
  existsb (fun c => String.eqb (fst c) name) (derived f).

(** [df[name]] for an added column. *)
Definition column (name : string) (f : Frame) : result (list pyval) :=
  match find (fun c => String.eqb (fst c) name) (derived f) with
  | Some c => Ok (snd c)
  | None => Raise KeyError
  end.

Fixpoint set_derived (name : string) (cells : list pyval)
  (cols : list (string * list pyval)) : list (string * list pyval) :=
  match cols with
  | [] => [(name, cells)]
  | c :: cols' =>
      if String.eqb (fst c) name then (name, cells) :: cols'
      else c :: set_derived name cells cols'
  end.

(** [df[name] = cells] *)
Definition assign (name : string) (cells : list pyval) (f : Frame) : Frame :=
  mkFrame (base f) (set_derived name cells (derived f)).

(** [df[mask]] as a new frame value. *)
Definition select (mask : list bool) (f : Frame) : Frame :=
  mkFrame
    match base f with
    | Trips rows => Trips (mask_rows mask rows)
    | Days rows => Days (mask_rows mask rows)
    end
    (map (fun c => (fst c, mask_rows mask (snd c))) (derived f)).

(** [df["started_at"] = pd.to_datetime(df["started_at"], errors="coerce")]
    on a column that holds timestamps already. *)
Definition assign_started_at (f : Frame) : result Frame :=
  match base f with
  | Trips rows =>
      Ok (mkFrame
            (Trips (map (fun r => mkTrip (to_datetime (started_at r))
                                         (start_station_name r)
                                         (member_casual r)) rows))
            (derived f))
  | Days _ => Raise KeyError
  end.

(** [df["date"] = pd.to_datetime(df["date"])] *)
Definition assign_date (f : Frame) : result Frame :=
  match base f with
  | Days rows => Ok (mkFrame (Days (df_plot rows)) (derived f))
  | Trips _ => Raise KeyError
  end.

Definition weather_page_run (df_weather : nat)
  : M (list (option Timestamp * option Z * option Q)) :=
  df_plot <- copy df_weather ;;
  update df_plot assign_date ;;;
  f <- read df_plot ;;
  rows <- lift (day_rows f) ;;
  ret (map (fun r => (date r, bike_rides_daily r, avgTemp r)) rows).

Definition stations_page_run (df_bike : nat) (season_filter : list string)
  : M (list (string * Z)) :=
  df1 <- copy df_bike ;;
  update df1 assign_started_at ;;;
  f <- read df1 ;;
  (if negb (has_column "season" f) then
     update df1 (fun f =>
       match trip_rows f with
       | Ok rows => Ok (assign "month" (map month_cell rows) f)
       | Raise e => Raise e
       end) ;;;
     update df1 (fun f =>
       match column "month" f with
       | Ok ms => Ok (assign "season" (map (fun m => PyStr (get_season m)) ms) f)
       | Raise e => Raise e
       end)
   else ret tt) ;;;
  f <- read df1 ;;
  season <- lift (column "season" f) ;;
  df1 <- alloc (select (map (fun c => isin c season_filter) season) f) ;;
  f <- read df1 ;;
  rows <- lift (trip_rows f) ;;
  ret (top20 rows).

Definition peak_page_run (df_bike : nat) (user_filter : list string)
  : M (Z * Z * list (Z * Z)) :=
  f <- read df_bike ;;
  rows <- lift (trip_rows f) ;;
  selected <- alloc (select (map (fun r => isin (str_cell (member_casual r))
                                               user_filter) rows) f) ;;
  df2 <- copy selected ;;
  update df2 (fun f =>
    match trip_rows f with
    | Ok rows => Ok (assign "hour" (map hour_cell rows) f)
    | Raise e => Raise e
    end) ;;;
  f <- read df2 ;;
  hours <- lift (column "hour" f) ;;
  lift (peak_metrics (hourly_of hours)).

Definition recommendations_page_run (df_bike : nat) : M (Z * string) :=
  f <- read df_bike ;;
  rows <- lift (trip_rows f) ;;
  lift (recommendations_page rows).

(** The pages that work on the cached frames, with what the user
    selected on them. *)
Inductive Page : Type :=
| WeatherPage
| StationsPage (season_filter : list string)
| PeakPage (user_filter : list string)
| RecommendationsPage.

(** What a page shows. *)
Inductive Shown : Type :=
| ShownSeries (points : list (option Timestamp * option Z * option Q))
| ShownRanking (bars : list (string * Z))
| ShownPeak (metrics : Z * Z * list (Z * Z))
| ShownSummary (metrics : Z * string).

Definition render (df_bike df_weather : nat) (page : Page) : M Shown :=
  match page with
  | WeatherPage =>
      x <- weather_page_run df_weather ;; ret (ShownSeries x)
  | StationsPage season_filter =>
      x <- stations_page_run df_bike season_filter ;; ret (ShownRanking x)
  | PeakPage user_filter =>
      x <- peak_page_run df_bike user_filter ;; ret (ShownPeak x)
  | RecommendationsPage =>
      x <- recommendations_page_run df_bike ;; ret (ShownSummary x)
  end.

(** The store right after the two loads at the top of the script. *)
Definition initial_store (bike : list CsvTrip) (weather : list CsvDay) : Store :=
  [mkFrame (Trips (load_bike_data bike)) [];
   mkFrame (Days (load_daily_weather_data weather)) []].

(** A session: the pages the user visits, one script run after the
    other on the same store; a run that raises ends that run only. *)
Fixpoint session (df_bike df_weather : nat) (pages : list Page) (s : Store)
  : Store :=
  match pages with
  | [] => s
  | page :: pages' =>
      session df_bike df_weather pages'
              (snd (render df_bike df_weather page s))
  end.

(** [keeps n m post]: run on a store of at least [n] frames, [m] leaves
    the first [n] frames as they are, and the value it returns satisfies
    [post]. *)
Definition keeps {A : Type} (n : nat) (m : M A) (post : A -> Prop) : Prop :=
  forall s : Store,
    (n <= List.length s)%nat ->
    firstn n (snd (m s)) = firstn n s /\
    (n <= List.length (snd (m s)))%nat /\
    match fst (m s) with
    | Ok a => post a
    | Raise _ => True
    end.

(** What a page shows, computed from the two loaded tables. *)
Definition shown (df_bike : list TripRow) (df_weather : list WeatherRow)
  (page : Page) : result Shown :=
  match page with
  | WeatherPage => Ok (ShownSeries (fig df_weather))
  | StationsPage season_filter =>
      match stations_page df_bike season_filter with
      | Ok x => Ok (ShownRanking x)
      | Raise e => Raise e
      end
  | PeakPage user_filter =>
      match peak_page df_bike user_filter with
      | Ok x => Ok (ShownPeak x)
      | Raise e => Raise e
      end
  | RecommendationsPage =>
      match recommendations_page df_bike with
      | Ok x => Ok (ShownSummary x)
      | Raise e => Raise e
      end
  end.

(** ** The page selector and the routing of the script *)

Definition page_options : list string :=
  ["Intro page";
   "Weather component and bike usage";
   "Most popular stations";
   "Interactive map with aggregated bike trips";
   "Recommendations";
   "Peak hours and demand"].

(** The blocks of the script that render something, by their title. *)
Inductive Block : Type :=
| IntroTitle
| WeatherBlock
| StationsBlock
| MapBlock
| PeakBlock
| RecommendationsBlock
| IntroPurpose.

(** The [if]/[elif] chain on [page], and the second [if] after it. *)
Definition route (page : string) : list Block :=
  (if String.eqb page "Intro page" then [IntroTitle]
   else if String.eqb page "Weather component and bike usage"
        then [WeatherBlock]
   else if String.eqb page "Most popular stations" then [StationsBlock]
   else if String.eqb page "Interactive map with aggregated bike trips"
        then [MapBlock]
   else if String.eqb page "Peak hours and demand" then [PeakBlock]
   else if String.eqb page "Recommendations" then [RecommendationsBlock]
   else [])
  ++ (if String.eqb page "Intro page" then [IntroPurpose] else []).

(** ** The bar colour of the station page *)

Definition season_colors : list (string * string) :=
  [("Winter", "#457b9d"); ("Spring", "#2a9d8f");
   ("Summer", "#e9c46a"); ("Autumn", "#e76f51")].

(** [d.get(key, default)] on a dict of strings. *)
Definition dict_get (d : list (string * string)) (key default : string)
  : string :=
  match find (fun kv => String.eqb (fst kv) key) d with
  | Some kv => snd kv
  | None => default
  end.

(** [season_filter[0] if len(season_filter) == 1 else "Winter"] *)
Definition selected_season (season_filter : list string) : string :=
  match season_filter with
  | [s] => s
  | _ => "Winter"
  end.

Definition bar_color (season_filter : list string) : string :=
  dict_get season_colors (selected_season season_filter) "#457b9d".

(** ** The texts of the metrics *)

(** The decimal digits of [|z|]. *)
Definition digits_of (z : Z) : string :=
  NilZero.string_of_uint (N.to_uint (Z.abs_N z)).

(** [str(z)] *)
Definition py_str (z : Z) : string :=
  if z <? 0 then "-" ++ digits_of z else digits_of z.

Fixpoint zeros (n : nat) : string :=
  match n with
  | O => ""
  | S n' => String "0" (zeros n')
  end.

(** [f"{z:02d}"]: zeros between the sign and the digits up to a width
    of two characters. *)
Definition format_02d (z : Z) : string :=
  let ds := digits_of z in
  if z <? 0 then "-" ++ zeros (1 - String.length ds) ++ ds
  else zeros (2 - String.length ds) ++ ds.

(** A comma after every third digit, on the digits from the right. *)
Fixpoint group3 (rev_digits : list ascii) : list ascii :=
  match rev_digits with
  | a :: b :: c :: ((_ :: _) as more) =>
      a :: b :: c :: ","%char :: group3 more
  | _ => rev_digits
  end.

(** [f"{z:,}"] *)
Definition format_comma (z : Z) : string :=
  let grouped :=
    string_of_list_ascii
      (rev (group3 (rev (list_ascii_of_string (digits_of z))))) in
  if z <? 0 then "-" ++ grouped else grouped.

(** Reading a displayed number: the commas are dropped and the rest is
    read as a decimal integer. *)
Definition not_comma (c : ascii) : bool := negb (Ascii.eqb c ","%char).

Definition strip_commas (s : string) : string :=
  string_of_list_ascii (filter not_comma (list_ascii_of_string s)).

Definition read_int (s : string) : option Z :=
  option_map Z.of_int (NilZero.int_of_string s).

(** The check that [f"{n:02d}"] is two characters that read back as
    [n]; it is run on 0..99. *)
Definition two_digits_ok (n : nat) : bool :=
  let s := format_02d (Z.of_nat n) in
  Nat.eqb (String.length s) 2
  && match read_int s with
     | Some z => z =? Z.of_nat n
     | None => false
     end.

(** [st.metric("Peak hour (highest demand)", f"{int(peak_row['hour']):02d}:00")]
    and [st.metric("Trips at peak hour", f"{int(peak_row['trips']):,}")] *)
Definition peak_hour_text (r : HourlyRow) : string :=
  format_02d (h_hour r) ++ ":00".

Definition peak_trips_text (r : HourlyRow) : string :=
  format_comma (h_trips r).

(** [st.metric("Total trips in sample", f"{total_trips:,}")] *)
Definition total_trips_text (df_bike : list TripRow) : string :=
  format_comma (total_trips df_bike).

(** The sum of the counts of a grouped table. *)
Definition sum_counts {K : Type} (rows : list (K * Z)) : Z :=
  fold_right Z.add 0 (map snd rows).

(** ** The first version of the script, [st_dashboard.py] *)

Module StDashboard.

(** [pd.to_datetime] with the default [errors="raise"]: a blank cell is
    NaT, a text that is no date raises. *)
Definition to_datetime_strict (c : csv_time) : result (option Timestamp) :=
  match c with
  | TimeText t => Ok (Some t)
  | Blank => Ok None
  | Unparsable _ => Raise ValueError
  end.

(** [df_daily = pd.read_csv(..); df_daily["date"] = pd.to_datetime(df_daily["date"])] *)
Fixpoint df_daily (csv : list CsvDay) : result (list WeatherRow) :=
  match csv with
  | [] => Ok []
  | r :: csv' =>
      match to_datetime_strict (csv_date r) with
      | Ok d =>
          match df_daily csv' with
          | Ok rows =>
              Ok (mkDay d (csv_bike_rides_daily r) (csv_avgTemp r) :: rows)
          | Raise e => Raise e
          end
      | Raise e => Raise e
      end
  end.

(** [df_trips = pd.read_csv(..).dropna(subset=["start_station_name"])];
    the start time stays the text of the file. *)
Definition df_trips (csv : list CsvTrip) : list CsvTrip :=
  filter (fun r => notna (csv_start_station_name r)) csv.

Definition top20 (df_trips : list CsvTrip) : list (string * Z) :=
  head 20 (sort_values_desc
             (groupby_size String.eqb String.leb
                (map csv_start_station_name df_trips))).

(** The points of the line chart, in row order. *)
Definition fig_line (df_daily : list WeatherRow)
  : list (option Timestamp * option Z * option Q) :=
  map (fun r => (date r, bike_rides_daily r, avgTemp r)) df_daily.

End StDashboard.

(** * Properties *)

(** ** Lists, sorting and grouping *)

Lemma present_map_filter_notna {A B : Type} (f : A -> option B) (l : list A) :
  present (map f (filter (fun r => notna (f r)) l)) = present (map f l).
Proof.
  induction l as [|x l IH]; simpl; [reflexivity|].
  destruct (f x) eqn:E; simpl; rewrite ?E; congruence.
Qed.

Lemma mask_rows_filter {A : Type} (p : A -> bool) (l : list A) :
  mask_rows (map p l) l = filter p l.
Proof.
  unfold mask_rows. induction l as [|x l IH]; simpl; [reflexivity|].
  destruct (p x); simpl; now rewrite IH.
Qed.

Lemma firstn_In {A : Type} (n : nat) (l : list A) (x : A) :
  In x (firstn n l) -> In x l.
Proof.
  intros H. rewrite <- (firstn_skipn n l). apply in_or_app. now left.
Qed.

Lemma StronglySorted_firstn {A : Type} (R : A -> A -> Prop) (n : nat) (l : list A) :
  StronglySorted R l -> StronglySorted R (firstn n l).
Proof.
  intros H. revert n. induction H as [|x l Hs IH Hx]; intros [|n]; simpl;
    try constructor.
  - apply IH.
  - rewrite Forall_forall in *. intros y Hy. apply Hx.
    eapply firstn_In, Hy.
Qed.

Lemma StronglySorted_app_tail {A : Type} (R : A -> A -> Prop)
  (l1 l2 : list A) (x : A) :
  StronglySorted R (l1 ++ x :: l2) -> Forall (R x) l2.
Proof.
  induction l1 as [|y l1 IH]; simpl; intros H; inversion H; subst; auto.
Qed.

Section SortingFacts.
Context {A : Type} (le : A -> A -> bool).

Lemma insert_sorted_perm (x : A) (l : list A) :
  Permutation (insert_sorted le x l) (x :: l).
Proof.
  induction l as [|y l IH]; simpl; [reflexivity|].
  destruct (le x y); [reflexivity|].
  rewrite IH. apply perm_swap.
Qed.

Lemma sort_by_perm (l : list A) : Permutation (sort_by le l) l.
Proof.
  induction l as [|x l IH]; simpl; [constructor|].
  rewrite insert_sorted_perm. now constructor.
Qed.

Lemma sort_by_length (l : list A) :
  List.length (sort_by le l) = List.length l.
Proof. apply Permutation_length, sort_by_perm. Qed.

Lemma sort_by_In (x : A) (l : list A) : In x (sort_by le l) <-> In x l.
Proof.
  split; apply Permutation_in;
    [apply sort_by_perm | apply Permutation_sym, sort_by_perm].
Qed.

Lemma insert_sorted_head (x : A) (l : list A) :
  HdRel (fun a b => le a b = true) x l -> insert_sorted le x l = x :: l.
Proof.
  intros H. destruct l as [|y l]; simpl; [reflexivity|].
  apply HdRel_inv in H. now rewrite H.
Qed.

(** Sorting rows that are in order already changes nothing. *)
Lemma sort_by_sorted_id (l : list A) :
  Sorted (fun a b => le a b = true) l -> sort_by le l = l.
Proof.
  induction 1 as [|x l Hs IH Hx]; simpl; [reflexivity|].
  rewrite IH. now apply insert_sorted_head.
Qed.

Hypothesis le_total : forall a b, le a b = false -> le b a = true.
Hypothesis le_trans :
  forall a b c, le a b = true -> le b c = true -> le a c = true.

Lemma insert_sorted_sorted (x : A) (l : list A) :
  StronglySorted (fun a b => le a b = true) l ->
  StronglySorted (fun a b => le a b = true) (insert_sorted le x l).
Proof.
  induction 1 as [|y l Hs IH Hy]; simpl.
  - repeat constructor.
  - destruct (le x y) eqn:E.
    + constructor; [now constructor|].
      constructor; [exact E|].
      rewrite Forall_forall in *. intros z Hz. eauto.
    + constructor; [exact IH|].
      rewrite Forall_forall in *. intros z Hz.
      apply (Permutation_in _ (insert_sorted_perm x l)) in Hz.
      destruct Hz as [<-|Hz]; auto.
Qed.

Lemma sort_by_sorted (l : list A) :
  StronglySorted (fun a b => le a b = true) (sort_by le l).
Proof.
  induction l as [|x l IH]; simpl; [constructor|].
  now apply insert_sorted_sorted.
Qed.
End SortingFacts.

Section UniqueFacts.
Context {K : Type} (eqb : K -> K -> bool).
Hypothesis eqb_eq : forall a b, eqb a b = true <-> a = b.

Lemma unique_In (x : K) (l : list K) : In x (unique eqb l) <-> In x l.
Proof.
  induction l as [|y l IH]; simpl; [tauto|].
  rewrite filter_In, IH.
  destruct (eqb y x) eqn:E; simpl.
  - apply eqb_eq in E. subst. intuition congruence.
  - assert (y <> x) by (intros ->; rewrite (proj2 (eqb_eq x x)) in E;
                        congruence).
    intuition congruence.
Qed.

Lemma unique_NoDup (l : list K) : NoDup (unique eqb l).
Proof.
  induction l as [|y l IH]; simpl; constructor.
  - rewrite filter_In. intros [_ H].
    rewrite (proj2 (eqb_eq y y) eq_refl) in H. discriminate.
  - now apply NoDup_filter.
Qed.

Lemma unique_length (dec : forall a b : K, {a = b} + {a <> b}) (l : list K) :
  List.length (unique eqb l) = List.length (nodup dec l).
Proof.
  apply Permutation_length, NoDup_Permutation.
  - apply unique_NoDup.
  - apply NoDup_nodup.
  - intros x. now rewrite unique_In, nodup_In.
Qed.

Lemma count_key_count_occ (dec : forall a b : K, {a = b} + {a <> b})
  (k : K) (l : list K) :
  count_key eqb k l = Z.of_nat (count_occ dec l k).
Proof.
  unfold count_key. f_equal.
  induction l as [|y l IH]; simpl; [reflexivity|].
  destruct (dec y k) as [->|Hne].
  - rewrite (proj2 (eqb_eq k k) eq_refl). simpl. now rewrite IH.
  - destruct (eqb k y) eqn:E; [|exact IH].
    apply eqb_eq in E. congruence.
Qed.

(** The groups are the distinct keys, each once, with its row count. *)
Lemma groupby_size_keys (le : K -> K -> bool) (col : list (option K)) :
  map fst (groupby_size eqb le col) = sort_by le (unique eqb (present col)).
Proof.
  unfold groupby_size. rewrite map_map. simpl. apply map_id.
Qed.

Lemma groupby_size_In (le : K -> K -> bool) (col : list (option K))
  (k : K) (c : Z) :
  In (k, c) (groupby_size eqb le col) <->
  In k (present col) /\ c = count_key eqb k (present col).
Proof.
  unfold groupby_size. rewrite in_map_iff. split.
  - intros (k' & [= <- <-] & Hin).
    rewrite sort_by_In, unique_In in Hin. auto.
  - intros [Hin ->]. exists k. split; [reflexivity|].
    now rewrite sort_by_In, unique_In.
Qed.

Lemma groupby_size_length (le : K -> K -> bool)
  (dec : forall a b : K, {a = b} + {a <> b}) (col : list (option K)) :
  List.length (groupby_size eqb le col)
  = List.length (nodup dec (present col)).
Proof.
  unfold groupby_size.
  now rewrite length_map, sort_by_length, (unique_length dec).
Qed.
End UniqueFacts.

(** ** Loading *)

Lemma filter_map_commute {A B : Type} (f : A -> B) (p : B -> bool) (q : A -> bool)
  (l : list A) :
  (forall a, p (f a) = q a) ->
  filter p (map f l) = map f (filter q l).
Proof.
  intros Hpq. induction l as [|x l IH]; simpl; [reflexivity|].
  rewrite Hpq. destruct (q x); simpl; now rewrite IH.
Qed.

Lemma filter_all {A : Type} (p : A -> bool) (l : list A) :
  forallb p l = true -> filter p l = l.
Proof.
  induction l as [|x l IH]; simpl; [reflexivity|].
  intros H. apply andb_prop in H as [Hx Hl]. rewrite Hx. now rewrite IH.
Qed.

Lemma load_bike_data_filter (csv : list CsvTrip) :
  load_bike_data csv = map coerce_started_at (filter valid_trip csv).
Proof.
  unfold load_bike_data. apply filter_map_commute.
  intros [[t|s|] [n|] m]; reflexivity.
Qed.

Lemma load_daily_weather_data_filter (csv : list CsvDay) :
  load_daily_weather_data csv = map coerce_date (filter valid_day csv).
Proof.
  unfold load_daily_weather_data. apply filter_map_commute.
  intros [[t|s|] [n|] [q|]]; reflexivity.
Qed.


(** C7: [load_bike_data] keeps exactly the rows of the file whose start
    time parses and whose start station name is present, and
    [load_daily_weather_data] exactly the rows with a date, a ride count
    and an average temperature, both in file order; when every row of the
    file is valid, the loaded table is the file itself (with the time
    column parsed) and no row is dropped. *)
Theorem load_keeps_exactly_valid_rows (bike : list CsvTrip) (weather : list CsvDay) :
  load_bike_data bike = map coerce_started_at (filter valid_trip bike) /\
  load_daily_weather_data weather = map coerce_date (filter valid_day weather) /\
  (forallb valid_trip bike = true ->
   load_bike_data bike = map coerce_started_at bike /\
   List.length (load_bike_data bike) = List.length bike) /\
  (forallb valid_day weather = true ->
   load_daily_weather_data weather = map coerce_date weather /\
   List.length (load_daily_weather_data weather) = List.length weather).
Proof.
  split; [apply load_bike_data_filter|].
  split; [apply load_daily_weather_data_filter|].
  split; intros Hall.
  - rewrite load_bike_data_filter, (filter_all _ _ Hall), length_map. auto.
  - rewrite load_daily_weather_data_filter, (filter_all _ _ Hall), length_map.
    auto.
Qed.

Lemma load_keeps_exactly_valid_rows_witness :
  let t := mkTimestamp 2022 1 1 8 0 0 in
  let bike := [mkCsvTrip (TimeText t) (Some "A") (Some "member");
               mkCsvTrip (TimeText t) (Some "B") None] in
  let weather := [mkCsvDay (TimeText t) (Some 100) (Some (5 # 1))] in
  load_bike_data bike = map coerce_started_at bike /\
  load_daily_weather_data weather = map coerce_date weather.
Proof.
  intros t bike weather.
  destruct (load_keeps_exactly_valid_rows bike weather) as (_ & _ & Hb & Hw).
  split; [apply Hb | apply Hw]; reflexivity.
Defined.

(** ** Seasons *)

(** C5: the season of a row is a function of the calendar month of its
    timestamp alone, and on the months 1 to 12 it is the calendar table:
    12, 1, 2 Winter; 3, 4, 5 Spring; 6, 7, 8 Summer; 9, 10, 11 Autumn,
    each month with exactly one label. *)
Theorem get_season_calendar (m : Z) (Hm : 1 <= m <= 12) (label : string) :
  (forall t station rider,
      month t = m ->
      season_cell (mkTrip (Some t) station rider) = get_season (PyInt m)) /\
  (get_season (PyInt m) = label <->
   (label = "Winter" /\ In m [12; 1; 2]) \/
   (label = "Spring" /\ In m [3; 4; 5]) \/
   (label = "Summer" /\ In m [6; 7; 8]) \/
   (label = "Autumn" /\ In m [9; 10; 11])).
Proof.
  split.
  - intros t station rider <-. reflexivity.
  - assert (Hcases : In m [1; 2; 3; 4; 5; 6; 7; 8; 9; 10; 11; 12])
      by (simpl; lia).
    simpl in Hcases.
    repeat (destruct Hcases as [<-|Hcases]); try contradiction;
      (split;
       [ intros <-; simpl; intuition (auto; lia)
       | intros [[-> H]|[[-> H]|[[-> H]|[-> H]]]]; simpl in H;
         solve [reflexivity | exfalso; lia] ]).
Qed.

Lemma get_season_calendar_witness :
  get_season (PyInt 7) = "Summer".
Proof.
  apply (get_season_calendar 7); [lia|].
  right; right; left. split; [reflexivity | simpl; auto].
Defined.

(** C10: [get_season] returns a label for every value and never raises;
    a value that equals none of 12, 1, 2, 3, 4, 5, 6, 7, 8 takes the last
    branch and is labelled Autumn: an integer out of the range 1..12, NaN
    (the month of a missing timestamp), None, or a string. *)
Theorem get_season_total_else_autumn :
  (forall m, In (get_season m) all_seasons) /\
  (forall m,
      py_in m [12; 1; 2] = false ->
      py_in m [3; 4; 5] = false ->
      py_in m [6; 7; 8] = false ->
      get_season m = "Autumn") /\
  (forall z, z < 1 \/ 12 < z -> get_season (PyInt z) = "Autumn") /\
  get_season PyNaN = "Autumn" /\
  get_season PyNone = "Autumn" /\
  (forall s, get_season (PyStr s) = "Autumn").
Proof.
  split; [|split; [|split]].
  - intros m. unfold get_season, all_seasons.
    destruct (py_in m [12; 1; 2]); [simpl; auto|].
    destruct (py_in m [3; 4; 5]); [simpl; auto|].
    destruct (py_in m [6; 7; 8]); simpl; auto.
  - intros m H1 H2 H3. unfold get_season. now rewrite H1, H2, H3.
  - intros z Hz. unfold get_season, py_in. simpl.
    repeat match goal with
           | |- context [Z.eqb z ?k] => destruct (Z.eqb_spec z k); [lia|]
           end.
    reflexivity.
  - repeat split; reflexivity.
Qed.

Lemma get_season_total_else_autumn_witness :
  get_season (PyInt 13) = "Autumn" /\ get_season (PyFloat (1 # 2)) = "Autumn".
Proof.
  destruct get_season_total_else_autumn as (_ & Helse & Hrange & _).
  split; [apply Hrange; lia | apply Helse; reflexivity].
Defined.

Lemma string_eqb_eq (a b : string) : String.eqb a b = true <-> a = b.
Proof. apply String.eqb_eq. Qed.

Lemma filter_season_filter (season_filter : list string) (df1 : list TripRow) :
  filter_season season_filter df1
  = filter (fun r => isin (PyStr (season_cell r)) season_filter) df1.
Proof. apply mask_rows_filter. Qed.

Lemma isin_all_seasons (m : pyval) :
  isin (PyStr (get_season m)) all_seasons = true.
Proof.
  unfold get_season.
  destruct (py_in m [12; 1; 2]); [reflexivity|].
  destruct (py_in m [3; 4; 5]); [reflexivity|].
  destruct (py_in m [6; 7; 8]); reflexivity.
Qed.

Lemma filter_season_all (df1 : list TripRow) :
  filter_season all_seasons df1 = df1.
Proof.
  rewrite filter_season_filter. apply filter_all, forallb_forall.
  intros r _. apply isin_all_seasons.
Qed.

Lemma filter_season_none (df1 : list TripRow) : filter_season [] df1 = [].
Proof.
  rewrite filter_season_filter. induction df1; simpl; auto.
Qed.

(** The default selection, every season that occurs, keeps every row. *)
Lemma filter_season_default (df1 : list TripRow) :
  filter_season (season_options df1) df1 = df1.
Proof.
  rewrite filter_season_filter. apply filter_all, forallb_forall.
  intros r Hr. simpl. apply existsb_exists. exists (season_cell r).
  split; [|apply String.eqb_refl].
  unfold season_options.
  rewrite sort_by_In, (unique_In _ string_eqb_eq). now apply in_map.
Qed.

(** C6: on a trip table (every row has its timestamp), the season filter
    with no season selected keeps no row, and with the four seasons
    selected it keeps the rows whose season can be derived, which are all
    the rows of the table. *)
Theorem filter_season_empty_and_all (T : list TripRow)
  (Hvalid : forall r, In r T -> started_at r <> None) :
  filter_season [] T = [] /\
  filter_season all_seasons T = filter (fun r => notna (started_at r)) T /\
  filter_season all_seasons T = T.
Proof.
  split; [apply filter_season_none|].
  split; [|apply filter_season_all].
  rewrite filter_season_all. symmetry. apply filter_all, forallb_forall.
  intros r Hr. specialize (Hvalid r Hr). now destruct (started_at r).
Qed.

Lemma filter_season_empty_and_all_witness :
  let T := [mkTrip (Some (mkTimestamp 2022 1 1 8 0 0)) (Some "A") (Some "member");
            mkTrip (Some (mkTimestamp 2022 7 4 9 0 0)) (Some "B") (Some "casual")] in
  filter_season [] T = [] /\ filter_season all_seasons T = T.
Proof.
  intros T.
  assert (Hvalid : forall r, In r T -> started_at r <> None).
  { intros r [<-|[<-|[]]]; discriminate. }
  destruct (filter_season_empty_and_all T Hvalid) as (H0 & _ & Hall).
  split; assumption.
Defined.

(** ** The daily series *)

Lemma fig_load (csv : list CsvDay) :
  fig (load_daily_weather_data csv) = map csv_point (filter valid_day csv).
Proof.
  unfold fig, df_plot. rewrite load_daily_weather_data_filter, !map_map.
  reflexivity.
Qed.

(** C4 (as the code has it): the daily series is the sequence of the
    rows of the file that have a date, a ride count and a temperature, in
    the order of the file: no row is added for a date the file lacks and
    no row is reordered.  It ascends by date when those rows of the file
    do. *)
Theorem daily_series_in_file_order (csv : list CsvDay) :
  fig (load_daily_weather_data csv) = map csv_point (filter valid_day csv) /\
  (dates_ascending
     (map (fun r => to_datetime_coerce (csv_date r)) (filter valid_day csv))
   = true ->
   dates_ascending (map point_date (fig (load_daily_weather_data csv))) = true).
Proof.
  split; [apply fig_load|].
  intros H. rewrite fig_load, map_map. exact H.
Qed.

Lemma daily_series_in_file_order_witness :
  let csv := [mkCsvDay (TimeText (mkTimestamp 2022 1 1 0 0 0)) (Some 100) (Some (5 # 1));
              mkCsvDay (TimeText (mkTimestamp 2022 1 3 0 0 0)) (Some 150) (Some (6 # 1))] in
  fig (load_daily_weather_data csv) = map csv_point csv /\
  dates_ascending (map point_date (fig (load_daily_weather_data csv))) = true.
Proof.
  intros csv.
  destruct (daily_series_in_file_order csv) as [Heq Hasc].
  split; [exact Heq | apply Hasc; reflexivity].
Defined.

(** C4 as stated fails: a file whose rows are not in date order gives a
    series that is not ascending by date. *)
Lemma daily_series_not_sorted :
  let csv := [mkCsvDay (TimeText (mkTimestamp 2022 1 3 0 0 0)) (Some 150) (Some (6 # 1));
              mkCsvDay (TimeText (mkTimestamp 2022 1 1 0 0 0)) (Some 100) (Some (5 # 1))] in
  map point_date (fig (load_daily_weather_data csv))
  = [Some (mkTimestamp 2022 1 3 0 0 0); Some (mkTimestamp 2022 1 1 0 0 0)] /\
  dates_ascending (map point_date (fig (load_daily_weather_data csv))) = false.
Proof. split; reflexivity. Qed.

(** ** The station ranking *)

Lemma StronglySorted_weaken {A : Type} (R S : A -> A -> Prop) (l : list A) :
  (forall a b, R a b -> S a b) -> StronglySorted R l -> StronglySorted S l.
Proof.
  intros HRS H. induction H as [|x l Hs IH Hx]; constructor; auto.
  eapply Forall_impl; [|exact Hx]. auto.
Qed.

Lemma NoDup_firstn {A : Type} (n : nat) (l : list A) :
  NoDup l -> NoDup (firstn n l).
Proof.
  intros H. revert n. induction H as [|x l Hx Hl IH]; intros [|n]; simpl;
    try constructor; auto.
  intros Hin. apply Hx. eapply firstn_In, Hin.
Qed.

Lemma sort_values_desc_perm {K : Type} (rows : list (K * Z)) :
  Permutation (sort_values_desc rows) rows.
Proof. apply sort_by_perm. Qed.

Lemma sort_values_desc_sorted {K : Type} (rows : list (K * Z)) :
  StronglySorted (fun a b => snd b <= snd a) (sort_values_desc rows).
Proof.
  apply StronglySorted_weaken
    with (R := fun a b : K * Z => (snd b <=? snd a) = true).
  - intros a b H. now apply Z.leb_le.
  - apply sort_by_sorted.
    + intros a b H. apply Z.leb_gt in H. apply Z.leb_le. lia.
    + intros a b c H1 H2. apply Z.leb_le in H1, H2. apply Z.leb_le. lia.
Qed.

Lemma station_counts_In (T : list TripRow) (s : string) (c : Z) :
  In (s, c) (station_counts T) <->
  In s (stations_of T) /\
  c = Z.of_nat (count_occ string_dec (stations_of T) s).
Proof.
  unfold station_counts, stations_of.
  rewrite (groupby_size_In _ string_eqb_eq), present_map_filter_notna.
  now rewrite (count_key_count_occ _ string_eqb_eq string_dec).
Qed.

Lemma station_counts_length (T : list TripRow) :
  List.length (station_counts T)
  = List.length (nodup string_dec (stations_of T)).
Proof.
  unfold station_counts, stations_of.
  rewrite (groupby_size_length _ string_eqb_eq _ string_dec).
  now rewrite present_map_filter_notna.
Qed.

Lemma station_counts_NoDup (T : list TripRow) :
  NoDup (map fst (station_counts T)).
Proof.
  unfold station_counts. rewrite groupby_size_keys.
  eapply Permutation_NoDup;
    [apply Permutation_sym, sort_by_perm | apply (unique_NoDup _ string_eqb_eq)].
Qed.

Lemma head_nonneg {A : Type} (n : Z) (l : list A) :
  0 <= n -> head n l = firstn (Z.to_nat n) l.
Proof. intros H. unfold head. now rewrite (proj2 (Z.leb_le 0 n) H). Qed.

(** C1: for a trip table [T] and [n >= 0], the ranking of the [n] top
    start stations has at most [n] entries and at most as many as there
    are distinct stations in [T]; its entries are stations of [T], each
    once, with the number of rows of that station, in non-increasing order
    of count; and when [T] has fewer than [n] distinct stations every one
    of them is in the ranking. *)
Theorem top_stations_ranking (T : list TripRow) (n : Z) (Hn : 0 <= n) :
  let ranking := top_stations n T in
  let distinct := nodup string_dec (stations_of T) in
  Z.of_nat (List.length ranking) <= n /\
  (List.length ranking <= List.length distinct)%nat /\
  StronglySorted (fun a b => snd b <= snd a) ranking /\
  (forall s c,
      In (s, c) ranking ->
      In s distinct /\ c = Z.of_nat (count_occ string_dec (stations_of T) s)) /\
  NoDup (map fst ranking) /\
  (Z.of_nat (List.length distinct) < n ->
   forall s, In s distinct -> In s (map fst ranking)).
Proof.
  intros ranking distinct. subst ranking distinct.
  unfold top_stations. rewrite (head_nonneg _ _ Hn).
  set (sorted := sort_values_desc (station_counts T)).
  assert (Hlen : List.length sorted
                 = List.length (nodup string_dec (stations_of T))).
  { unfold sorted, sort_values_desc.
    now rewrite sort_by_length, station_counts_length. }
  repeat split.
  - pose proof (firstn_le_length (Z.to_nat n) sorted). lia.
  - rewrite length_firstn, Hlen. lia.
  - apply StronglySorted_firstn, sort_values_desc_sorted.
  - apply firstn_In in H.
    apply (Permutation_in _ (sort_values_desc_perm _)) in H.
    apply station_counts_In in H as [H _]. now apply nodup_In.
  - apply firstn_In in H.
    apply (Permutation_in _ (sort_values_desc_perm _)) in H.
    now apply station_counts_In in H as [_ H].
  - rewrite <- firstn_map. apply NoDup_firstn.
    eapply Permutation_NoDup;
      [apply Permutation_map, Permutation_sym, sort_values_desc_perm
      | apply station_counts_NoDup].
  - intros Hfew s Hs. rewrite firstn_all2 by lia.
    apply nodup_In in Hs.
    apply in_map_iff. exists (s, Z.of_nat (count_occ string_dec (stations_of T) s)).
    split; [reflexivity|].
    apply (Permutation_in _ (Permutation_sym (sort_values_desc_perm _))).
    now apply station_counts_In.
Qed.

Lemma top_stations_ranking_witness :
  let t := mkTimestamp 2022 1 1 8 0 0 in
  let T := [mkTrip (Some t) (Some "A") (Some "member");
            mkTrip (Some t) (Some "B") (Some "casual");
            mkTrip (Some t) (Some "A") (Some "member")] in
  top_stations 1 T = [("A", 2)] /\
  Z.of_nat (List.length (top_stations 1 T)) <= 1 /\
  StronglySorted (fun a b => snd b <= snd a) (top20 T).
Proof.
  intros t T.
  split; [reflexivity|].
  split.
  - apply (top_stations_ranking T 1). lia.
  - apply (top_stations_ranking T 20). lia.
Defined.

(** ** The summary page *)

Lemma stations_of_nodup_nil (T : list TripRow) :
  stations_of T = [] <-> nodup string_dec (stations_of T) = [].
Proof.
  split; intros H.
  - now rewrite H.
  - destruct (stations_of T) as [|s l] eqn:E; [reflexivity|].
    assert (Hin : In s (nodup string_dec (s :: l)))
      by (apply nodup_In; now left).
    rewrite H in Hin. contradiction.
Qed.

Lemma top_station_none (df : list TripRow) :
  stations_of df = [] -> top_station df = Raise IndexError.
Proof.
  intros H. unfold top_station.
  assert (Hlen : List.length (sort_values_desc (station_counts df)) = 0%nat).
  { unfold sort_values_desc.
    rewrite sort_by_length, station_counts_length.
    now rewrite (proj1 (stations_of_nodup_nil df) H). }
  apply length_zero_iff_nil in Hlen. now rewrite Hlen.
Qed.

Lemma top_station_some (df : list TripRow) :
  stations_of df <> [] ->
  exists name,
    top_station df = Ok name /\
    In name (stations_of df) /\
    forall s, (count_occ string_dec (stations_of df) s
               <= count_occ string_dec (stations_of df) name)%nat.
Proof.
  intros Hne. unfold top_station.
  pose proof (sort_values_desc_sorted (station_counts df)) as Hsorted.
  pose proof (sort_values_desc_perm (station_counts df)) as Hperm.
  destruct (sort_values_desc (station_counts df)) as [|[name c] rest] eqn:E.
  - exfalso. apply Hne, stations_of_nodup_nil, length_zero_iff_nil.
    rewrite <- station_counts_length.
    apply Permutation_length in Hperm. simpl in Hperm. now rewrite <- Hperm.
  - exists name. split; [reflexivity|].
    assert (Hhead : In (name, c) (station_counts df))
      by (apply (Permutation_in _ Hperm); now left).
    apply station_counts_In in Hhead as [Hin ->].
    split; [exact Hin|].
    intros s.
    destruct (in_dec string_dec s (stations_of df)) as [Hs|Hs].
    + assert (Hrow : In (s, Z.of_nat (count_occ string_dec (stations_of df) s))
                        (station_counts df))
        by now apply station_counts_In.
      apply (Permutation_in _ (Permutation_sym Hperm)) in Hrow.
      destruct Hrow as [[= -> _]|Hrow]; [lia|].
      apply StronglySorted_inv in Hsorted as [_ Hall].
      rewrite Forall_forall in Hall. specialize (Hall _ Hrow).
      simpl in Hall. lia.
    + apply (count_occ_not_In string_dec) in Hs. rewrite Hs. lia.
Qed.

(** C3 (as the code has it): for the empty trip table the total is 0, but
    the page raises IndexError when it takes the first entry of the empty
    ranking, so no summary with an absent top station is returned.  The
    page returns the pair of the row count and a most frequent start
    station exactly for the tables in which some row has a station. *)
Theorem summary_raises_without_stations :
  total_trips [] = 0 /\
  recommendations_page [] = Raise IndexError /\
  (forall df, stations_of df = [] ->
              recommendations_page df = Raise IndexError) /\
  (forall df, stations_of df <> [] ->
     exists name,
       recommendations_page df = Ok (Z.of_nat (List.length df), name) /\
       In name (stations_of df) /\
       forall s, (count_occ string_dec (stations_of df) s
                  <= count_occ string_dec (stations_of df) name)%nat).
Proof.
  split; [reflexivity|]. split; [reflexivity|]. split.
  - intros df H. unfold recommendations_page. now rewrite top_station_none.
  - intros df H. destruct (top_station_some df H) as (name & Htop & Hin & Hmax).
    exists name. unfold recommendations_page. rewrite Htop. auto.
Qed.

Lemma summary_raises_without_stations_witness :
  let t := mkTimestamp 2022 1 1 8 0 0 in
  let df := [mkTrip (Some t) (Some "A") (Some "member");
             mkTrip (Some t) (Some "B") (Some "casual");
             mkTrip (Some t) (Some "A") (Some "member")] in
  exists name, recommendations_page df = Ok (3, name).
Proof.
  intros t df.
  destruct summary_raises_without_stations as (_ & _ & _ & Hsome).
  destruct (Hsome df) as (name & Hpage & _); [discriminate|].
  exists name. exact Hpage.
Defined.

(** C3 as stated fails: on the empty table the page returns nothing, it
    raises. *)
Lemma summary_of_empty_table_raises :
  recommendations_page [] = Raise IndexError /\
  is_ok (recommendations_page []) = false.
Proof. split; reflexivity. Qed.

(** ** Empty selections *)

(** C8 (as the code has it): when the selected seasons leave no row, the
    station page shows the empty ranking without an error; when the
    selected rider types leave no row, the hourly page raises ValueError
    at the peak lookup instead of showing an empty state. *)
Theorem views_on_empty_selection (df_bike : list TripRow)
  (season_filter user_filter : list string) :
  (filter_season season_filter df_bike = [] ->
   stations_page df_bike season_filter = Ok []) /\
  (df2 df_bike user_filter = [] ->
   peak_page df_bike user_filter = Raise ValueError).
Proof.
  split; intros H.
  - unfold stations_page. now rewrite H.
  - unfold peak_page. now rewrite H.
Qed.

Lemma views_on_empty_selection_witness :
  let df := [mkTrip (Some (mkTimestamp 2022 1 1 8 0 0)) (Some "A") (Some "member")] in
  stations_page df [] = Ok [] /\ peak_page df [] = Raise ValueError.
Proof.
  intros df.
  destruct (views_on_empty_selection df [] []) as [Hs Hp].
  split; [apply Hs | apply Hp]; reflexivity.
Defined.

(** C8 as stated fails: with no rider type selected the filtered table
    has no row and the hourly page raises. *)
Lemma peak_page_raises_on_empty_selection :
  let df := [mkTrip (Some (mkTimestamp 2022 1 1 8 0 0)) (Some "A") (Some "member")] in
  df2 df [] = [] /\
  peak_page df [] = Raise ValueError /\
  is_ok (peak_page df []) = false.
Proof. repeat split; reflexivity. Qed.

(** ** The hourly distribution and its peak *)

Lemma StronglySorted_map_inv {A B : Type} (S : B -> B -> Prop) (f : A -> B)
  (l : list A) :
  StronglySorted S (map f l) ->
  StronglySorted (fun a b => S (f a) (f b)) l.
Proof.
  induction l as [|x l IH]; simpl; intros H; [constructor|].
  apply StronglySorted_inv in H as [Hs Hx]. constructor; auto.
  rewrite Forall_forall in *. intros y Hy. apply Hx, in_map, Hy.
Qed.

Lemma combine_seq_fst {A : Type} (l : list A) (a : nat) :
  map fst (combine (seq a (List.length l)) l) = seq a (List.length l).
Proof.
  revert a. induction l as [|x l IH]; intros a; simpl; [reflexivity|].
  now rewrite IH.
Qed.

Lemma combine_seq_snd {A : Type} (l : list A) (a : nat) :
  map snd (combine (seq a (List.length l)) l) = l.
Proof.
  revert a. induction l as [|x l IH]; intros a; simpl; [reflexivity|].
  now rewrite IH.
Qed.

Lemma reset_index_labels (groups : list (Z * Z)) :
  map h_label (reset_index groups) = seq 0 (List.length groups).
Proof.
  unfold reset_index. rewrite map_map. simpl. apply combine_seq_fst.
Qed.

Lemma reset_index_columns (groups : list (Z * Z)) :
  map (fun r => (h_hour r, h_trips r)) (reset_index groups) = groups.
Proof.
  unfold reset_index. rewrite map_map. simpl.
  transitivity (map snd (combine (seq 0 (List.length groups)) groups));
    [|apply combine_seq_snd].
  apply map_ext. intros [i [h c]]. reflexivity.
Qed.

Lemma reset_index_hours (groups : list (Z * Z)) :
  map h_hour (reset_index groups) = map fst groups.
Proof.
  rewrite <- (reset_index_columns groups) at 2. now rewrite map_map.
Qed.

Lemma Z_eqb_eq (a b : Z) : (a =? b) = true <-> a = b.
Proof. apply Z.eqb_eq. Qed.

(** The groups come out of [groupby] in hour order, so the sort by hour
    leaves them in place. *)
Lemma hourly_of_reset_index (hour_column : list pyval) :
  hourly_of hour_column
  = reset_index (groupby_size Z.eqb Z.leb (map int_of_cell hour_column)).
Proof.
  unfold hourly_of. apply sort_by_sorted_id, StronglySorted_Sorted.
  apply StronglySorted_map_inv with (S := fun a b => (a <=? b) = true)
                                    (f := h_hour).
  rewrite reset_index_hours, groupby_size_keys.
  apply sort_by_sorted.
  - intros a b H. apply Z.leb_gt in H. apply Z.leb_le. lia.
  - intros a b c H1 H2. apply Z.leb_le in H1, H2. apply Z.leb_le. lia.
Qed.

Lemma hour_column_keys (T : list TripRow) :
  present (map int_of_cell (map hour_cell T)) = hours_of T.
Proof.
  unfold hours_of. rewrite map_map. f_equal. apply map_ext.
  intros r. unfold hour_cell. now destruct (started_at r).
Qed.

Lemma hourly_labels_NoDup (T : list TripRow) :
  NoDup (map h_label (hourly T)).
Proof.
  unfold hourly. rewrite hourly_of_reset_index, reset_index_labels.
  apply seq_NoDup.
Qed.

Lemma hourly_sorted (T : list TripRow) :
  StronglySorted (fun a b => h_hour a <= h_hour b) (hourly T).
Proof.
  unfold hourly, hourly_of.
  apply StronglySorted_weaken
    with (R := fun a b => (h_hour a <=? h_hour b) = true).
  - intros a b H. now apply Z.leb_le.
  - apply sort_by_sorted.
    + intros a b H. apply Z.leb_gt in H. apply Z.leb_le. lia.
    + intros a b c H1 H2. apply Z.leb_le in H1, H2. apply Z.leb_le. lia.
Qed.

(** The distribution has one row per hour present in the table, with the
    number of rows of that hour. *)
Lemma hourly_In (T : list TripRow) (h c : Z) :
  In (h, c) (map (fun r => (h_hour r, h_trips r)) (hourly T)) <->
  In h (hours_of T) /\ c = Z.of_nat (count_occ Z.eq_dec (hours_of T) h).
Proof.
  unfold hourly. rewrite hourly_of_reset_index, reset_index_columns.
  rewrite (groupby_size_In _ Z_eqb_eq), hour_column_keys.
  now rewrite (count_key_count_occ _ Z_eqb_eq Z.eq_dec).
Qed.

Lemma first_max_none (rows : list HourlyRow) :
  first_max rows = None -> rows = [].
Proof.
  destruct rows as [|r rows]; simpl; [reflexivity|].
  destruct (first_max rows) as [r'|]; [|discriminate].
  destruct (h_trips r' <=? h_trips r); discriminate.
Qed.

(** [first_max] returns a row that holds the maximum, and every row
    before it holds strictly less. *)
Lemma first_max_split (rows : list HourlyRow) (r : HourlyRow) :
  first_max rows = Some r ->
  exists before after,
    rows = before ++ r :: after /\
    Forall (fun x => h_trips x < h_trips r) before /\
    Forall (fun x => h_trips x <= h_trips r) after.
Proof.
  revert r. induction rows as [|a rows IH]; simpl; intros r H; [discriminate|].
  destruct (first_max rows) as [r'|] eqn:E.
  - destruct (IH r' eq_refl) as (before & after & Hrows & Hb & Ha).
    destruct (Z.leb_spec (h_trips r') (h_trips a)) as [Hle|Hlt];
      injection H as <-.
    + exists [], rows. repeat split; [constructor|].
      rewrite Hrows. apply Forall_app. split.
      * eapply Forall_impl; [|exact Hb]. simpl. intros; lia.
      * constructor; [lia|].
        eapply Forall_impl; [|exact Ha]. simpl. intros; lia.
    + exists (a :: before), after. rewrite Hrows. repeat split; auto.
  - injection H as <-. apply first_max_none in E. subst rows.
    exists [], []. repeat split; constructor.
Qed.

Lemma loc_label (rows : list HourlyRow) (r : HourlyRow) :
  NoDup (map h_label rows) -> In r rows -> loc rows (h_label r) = Ok r.
Proof.
  unfold loc. induction rows as [|a rows IH]; simpl; intros Hnd Hin;
    [contradiction|].
  inversion Hnd as [|? ? Ha Hnd']; subst.
  destruct Hin as [->|Hin].
  - now rewrite Nat.eqb_refl.
  - destruct (Nat.eqb_spec (h_label a) (h_label r)) as [Heq|Hne].
    + exfalso. apply Ha. rewrite Heq. now apply in_map.
    + now apply IH.
Qed.

Lemma peak_row_first_max (rows : list HourlyRow) :
  NoDup (map h_label rows) -> rows <> [] ->
  exists r, peak_row rows = Ok r /\ first_max rows = Some r.
Proof.
  intros Hnd Hne. unfold peak_row, idxmax.
  destruct (first_max rows) as [r|] eqn:E.
  - exists r. split; [|reflexivity].
    apply loc_label; [exact Hnd|].
    destruct (first_max_split rows r E) as (b & a & -> & _).
    apply in_or_app. right. now left.
  - now apply first_max_none in E.
Qed.

Lemma peak_row_spec (T : list TripRow) :
  hours_of T <> [] ->
  exists r,
    peak_row (hourly T) = Ok r /\
    In (h_hour r) (hours_of T) /\
    h_trips r = Z.of_nat (count_occ Z.eq_dec (hours_of T) (h_hour r)) /\
    (forall h, Z.of_nat (count_occ Z.eq_dec (hours_of T) h) <= h_trips r) /\
    (forall h, Z.of_nat (count_occ Z.eq_dec (hours_of T) h) = h_trips r ->
               h_hour r <= h).
Proof.
  intros Hne.
  assert (Hrows : hourly T <> []).
  { destruct (hours_of T) as [|h l] eqn:E; [congruence|].
    assert (Hin : In (h, Z.of_nat (count_occ Z.eq_dec (hours_of T) h))
                     (map (fun r => (h_hour r, h_trips r)) (hourly T))).
    { apply hourly_In. rewrite E. split; [now left | reflexivity]. }
    intros Hnil. rewrite Hnil in Hin. contradiction. }
  destruct (peak_row_first_max _ (hourly_labels_NoDup T) Hrows)
    as (r & Hpeak & Hmax).
  destruct (first_max_split _ _ Hmax) as (before & after & Hsplit & Hb & Ha).
  assert (Hrow : forall x, In x (hourly T) ->
            In (h_hour x) (hours_of T) /\
            h_trips x = Z.of_nat (count_occ Z.eq_dec (hours_of T) (h_hour x))).
  { intros x Hx. apply hourly_In.
    apply (in_map (fun r => (h_hour r, h_trips r))) in Hx. exact Hx. }
  assert (Hr : In r (hourly T))
    by (rewrite Hsplit; apply in_or_app; right; now left).
  destruct (Hrow r Hr) as [Hrin Hrcnt].
  assert (Hfind : forall h, In h (hours_of T) ->
            exists x, In x (hourly T) /\ h_hour x = h /\
              h_trips x = Z.of_nat (count_occ Z.eq_dec (hours_of T) h)).
  { intros h Hh.
    assert (Hin : In (h, Z.of_nat (count_occ Z.eq_dec (hours_of T) h))
                     (map (fun r => (h_hour r, h_trips r)) (hourly T)))
      by (apply hourly_In; auto).
    apply in_map_iff in Hin as (x & [= Hxh Hxc] & Hx). eauto. }
  assert (Hpos : 0 < h_trips r).
  { rewrite Hrcnt. apply (count_occ_In Z.eq_dec) in Hrin. lia. }
  pose proof (hourly_sorted T) as Hsorted. rewrite Hsplit in Hsorted.
  apply StronglySorted_app_tail in Hsorted.
  rewrite Forall_forall in Hb, Ha, Hsorted.
  exists r. repeat split; auto.
  - intros h. destruct (in_dec Z.eq_dec h (hours_of T)) as [Hh|Hh].
    + destruct (Hfind h Hh) as (x & Hx & _ & <-).
      rewrite Hsplit in Hx. apply in_app_or in Hx as [Hx|[<-|Hx]].
      * specialize (Hb x Hx). lia.
      * lia.
      * now apply Ha.
    + apply (count_occ_not_In Z.eq_dec) in Hh. rewrite Hh. lia.
  - intros h Htie.
    assert (Hh : In h (hours_of T)) by (apply (count_occ_In Z.eq_dec); lia).
    destruct (Hfind h Hh) as (x & Hx & <- & Hxc).
    rewrite Hsplit in Hx. apply in_app_or in Hx as [Hx|[<-|Hx]].
    + specialize (Hb x Hx). lia.
    + lia.
    + now apply Hsorted.
Qed.

(** C2: for a non-empty trip table (every row has its timestamp) the
    peak lookup returns a row of the hourly distribution: its hour occurs
    in the table, its count is the number of rows of that hour, no hour
    has more rows, and among the hours with as many rows it is the
    smallest; so when one hour has strictly more rows than every other
    (the mode) that hour is the peak. *)
Theorem peak_is_smallest_most_frequent_hour (T : list TripRow)
  (Hne : T <> []) (Hvalid : forall r, In r T -> started_at r <> None) :
  let cnt := fun h => Z.of_nat (count_occ Z.eq_dec (hours_of T) h) in
  exists r,
    peak_row (hourly T) = Ok r /\
    peak_metrics (hourly T)
    = Ok (h_hour r, h_trips r,
          map (fun x => (h_hour x, h_trips x)) (hourly T)) /\
    In (h_hour r) (hours_of T) /\
    h_trips r = cnt (h_hour r) /\
    (forall h, cnt h <= h_trips r) /\
    (forall h, cnt h = h_trips r -> h_hour r <= h) /\
    (forall h, (forall h', h' <> h -> cnt h' < cnt h) -> h_hour r = h).
Proof.
  intros cnt.
  assert (Hhours : hours_of T <> []).
  { destruct T as [|x T']; [congruence|].
    unfold hours_of. simpl.
    destruct (started_at x) eqn:E; [discriminate|].
    exfalso. apply (Hvalid x); [now left | exact E]. }
  destruct (peak_row_spec T Hhours) as (r & Hpeak & Hin & Hcnt & Hmax & Htie).
  exists r. split; [exact Hpeak|].
  split; [unfold peak_metrics; now rewrite Hpeak|].
  repeat split; auto.
  intros h Hmode.
  destruct (Z.eq_dec (h_hour r) h) as [Heq|Hneq]; [exact Heq|].
  specialize (Hmode _ Hneq). specialize (Hmax h). unfold cnt in *. lia.
Qed.

Lemma peak_is_smallest_most_frequent_hour_witness :
  let T := [mkTrip (Some (mkTimestamp 2022 1 1 9 0 0)) (Some "A") (Some "member");
            mkTrip (Some (mkTimestamp 2022 1 1 8 5 0)) (Some "B") (Some "casual");
            mkTrip (Some (mkTimestamp 2022 1 2 8 30 0)) (Some "A") (Some "member");
            mkTrip (Some (mkTimestamp 2022 1 2 9 45 0)) (Some "C") (Some "member")] in
  peak_row (hourly T) = Ok (mkHourly 0 8 2) /\
  exists r,
    peak_row (hourly T) = Ok r /\
    forall h, Z.of_nat (count_occ Z.eq_dec (hours_of T) h) = h_trips r ->
              h_hour r <= h.
Proof.
  intros T.
  assert (Hne : T <> []) by discriminate.
  assert (Hvalid : forall r, In r T -> started_at r <> None).
  { intros r [<-|[<-|[<-|[<-|[]]]]]; discriminate. }
  destruct (peak_is_smallest_most_frequent_hour T Hne Hvalid)
    as (r & Hpeak & _ & _ & _ & _ & Htie & _).
  split; [reflexivity|].
  exists r. split; [exact Hpeak | exact Htie].
Defined.

(** ** The pages and the cached frames *)

Lemma update_nth_length {A : Type} (n : nat) (x : A) (l : list A) :
  List.length (update_nth n x l) = List.length l.
Proof.
  revert n. induction l as [|y l IH]; intros [|n]; simpl; auto.
Qed.

Lemma update_nth_firstn {A : Type} (n i : nat) (x : A) (l : list A) :
  (n <= i)%nat -> firstn n (update_nth i x l) = firstn n l.
Proof.
  revert n i. induction l as [|y l IH]; intros [|n] [|i] H; simpl; auto;
    try lia.
  f_equal. apply IH. lia.
Qed.

Section Keeps.
Context (n : nat).

Lemma keeps_ret {A : Type} (a : A) (post : A -> Prop) :
  post a -> keeps n (ret a) post.
Proof. intros H s Hs. simpl. auto. Qed.

Lemma keeps_lift {A : Type} (r : result A) :
  keeps n (lift r) (fun _ => True).
Proof. intros s Hs. simpl. destruct r; auto. Qed.

Lemma keeps_bind {A B : Type} (m : M A) (k : A -> M B)
  (P : A -> Prop) (Q : B -> Prop) :
  keeps n m P -> (forall a, P a -> keeps n (k a) Q) ->
  keeps n (bind m k) Q.
Proof.
  intros Hm Hk s Hs. unfold bind.
  destruct (Hm s Hs) as (H1 & H2 & H3).
  destruct (m s) as [[a|e] s1]; simpl in *.
  - destruct (Hk a H3 s1 H2) as (K1 & K2 & K3).
    repeat split; auto. congruence.
  - auto.
Qed.

Lemma keeps_read (l : nat) : keeps n (read l) (fun _ => True).
Proof.
  intros s Hs. unfold read. destruct (nth_error s l); simpl; auto.
Qed.

(** A new frame goes after the frames that are there. *)
Lemma keeps_alloc (f : Frame) : keeps n (alloc f) (fun l => (n <= l)%nat).
Proof.
  intros s Hs. unfold alloc. simpl. repeat split.
  - rewrite firstn_app. replace (n - List.length s)%nat with 0%nat by lia.
    simpl. apply app_nil_r.
  - rewrite length_app. simpl. lia.
  - exact Hs.
Qed.

Lemma keeps_copy (l : nat) : keeps n (copy l) (fun l' => (n <= l')%nat).
Proof.
  unfold copy. eapply keeps_bind; [apply keeps_read|].
  intros f _. apply keeps_alloc.
Qed.

(** An assignment to a frame allocated by the page itself. *)
Lemma keeps_update (l : nat) (g : Frame -> result Frame) :
  (n <= l)%nat -> keeps n (update l g) (fun _ => True).
Proof.
  intros Hl s Hs. unfold update.
  destruct (nth_error s l) as [f|]; simpl; auto.
  destruct (g f) as [f'|e]; simpl; auto.
  rewrite update_nth_firstn, update_nth_length; auto.
Qed.

Lemma keeps_weather_page_run (df_weather : nat) :
  keeps n (weather_page_run df_weather) (fun _ => True).
Proof.
  unfold weather_page_run.
  eapply keeps_bind; [apply keeps_copy|]. intros df_plot Hplot.
  eapply keeps_bind; [apply keeps_update, Hplot|]. intros _ _.
  eapply keeps_bind; [apply keeps_read|]. intros f _.
  eapply keeps_bind; [apply keeps_lift|]. intros rows _.
  now apply keeps_ret.
Qed.

Lemma keeps_stations_page_run (df_bike : nat) (season_filter : list string) :
  keeps n (stations_page_run df_bike season_filter) (fun _ => True).
Proof.
  unfold stations_page_run.
  eapply keeps_bind; [apply keeps_copy|]. intros df1 Hdf1.
  eapply keeps_bind; [apply keeps_update, Hdf1|]. intros _ _.
  eapply keeps_bind; [apply keeps_read|]. intros f _.
  eapply keeps_bind with (P := fun _ => True).
  { destruct (negb (has_column "season" f)).
    - eapply keeps_bind; [apply keeps_update, Hdf1|]. intros _ _.
      apply keeps_update, Hdf1.
    - now apply keeps_ret. }
  intros _ _.
  eapply keeps_bind; [apply keeps_read|]. intros f' _.
  eapply keeps_bind; [apply keeps_lift|]. intros season _.
  eapply keeps_bind; [apply keeps_alloc|]. intros df1' _.
  eapply keeps_bind; [apply keeps_read|]. intros f'' _.
  eapply keeps_bind; [apply keeps_lift|]. intros rows _.
  now apply keeps_ret.
Qed.

Lemma keeps_peak_page_run (df_bike : nat) (user_filter : list string) :
  keeps n (peak_page_run df_bike user_filter) (fun _ => True).
Proof.
  unfold peak_page_run.
  eapply keeps_bind; [apply keeps_read|]. intros f _.
  eapply keeps_bind; [apply keeps_lift|]. intros rows _.
  eapply keeps_bind; [apply keeps_alloc|]. intros selected _.
  eapply keeps_bind; [apply keeps_copy|]. intros df2 Hdf2.
  eapply keeps_bind; [apply keeps_update, Hdf2|]. intros _ _.
  eapply keeps_bind; [apply keeps_read|]. intros f' _.
  eapply keeps_bind; [apply keeps_lift|]. intros hours _.
  apply keeps_lift.
Qed.

Lemma keeps_recommendations_page_run (df_bike : nat) :
  keeps n (recommendations_page_run df_bike) (fun _ => True).
Proof.
  unfold recommendations_page_run.
  eapply keeps_bind; [apply keeps_read|]. intros f _.
  eapply keeps_bind; [apply keeps_lift|]. intros rows _.
  apply keeps_lift.
Qed.

Lemma keeps_render (df_bike df_weather : nat) (page : Page) :
  keeps n (render df_bike df_weather page) (fun _ => True).
Proof.
  destruct page; simpl;
    (eapply keeps_bind;
     [ first [ apply keeps_weather_page_run
             | apply keeps_stations_page_run
             | apply keeps_peak_page_run
             | apply keeps_recommendations_page_run ]
     | intros x _; now apply keeps_ret ]).
Qed.

Lemma keeps_session (df_bike df_weather : nat) (pages : list Page)
  (s : Store) :
  (n <= List.length s)%nat ->
  firstn n (session df_bike df_weather pages s) = firstn n s.
Proof.
  revert s. induction pages as [|page pages IH]; intros s Hs; simpl;
    [reflexivity|].
  destruct (keeps_render df_bike df_weather page s Hs) as (H1 & H2 & _).
  rewrite IH; auto.
Qed.
End Keeps.

Lemma firstn_nth_error {A : Type} (n l : nat) (s s' : list A) :
  (l < n)%nat -> firstn n s' = firstn n s -> nth_error s' l = nth_error s l.
Proof.
  intros Hl H.
  pose proof (nth_error_firstn n s' l) as H1.
  pose proof (nth_error_firstn n s l) as H2.
  rewrite (proj2 (Nat.ltb_lt l n) Hl) in H1, H2.
  now rewrite <- H1, <- H2, H.
Qed.

(** C9: whichever pages are rendered, in whatever order and with
    whatever selections, the frames that were in the store before (the
    cached [df_bike] and [df_weather] among them) are the same afterwards:
    every assignment of a page goes to a frame the page has allocated
    itself, by [copy] or by a row selection. *)
Theorem pages_keep_loaded_frames (s : Store) (df_bike df_weather : nat)
  (pages : list Page)
  (Hbike : (df_bike < List.length s)%nat)
  (Hweather : (df_weather < List.length s)%nat) :
  let s' := session df_bike df_weather pages s in
  firstn (List.length s) s' = s /\
  nth_error s' df_bike = nth_error s df_bike /\
  nth_error s' df_weather = nth_error s df_weather /\
  (forall page,
      let s1 := snd (render df_bike df_weather page s) in
      nth_error s1 df_bike = nth_error s df_bike /\
      nth_error s1 df_weather = nth_error s df_weather).
Proof.
  intros s'.
  assert (Hkeep : firstn (List.length s) s' = firstn (List.length s) s)
    by (apply keeps_session; lia).
  split; [now rewrite Hkeep, firstn_all|].
  split; [now apply (firstn_nth_error (List.length s))|].
  split; [now apply (firstn_nth_error (List.length s))|].
  intros page s1.
  destruct (keeps_render (List.length s) df_bike df_weather page s (le_n _))
    as (H1 & _).
  split; now apply (firstn_nth_error (List.length s)).
Qed.

Lemma pages_keep_loaded_frames_witness :
  let t := mkTimestamp 2022 1 1 8 0 0 in
  let bike := [mkCsvTrip (TimeText t) (Some "A") (Some "member");
               mkCsvTrip (TimeText t) (Some "B") (Some "casual")] in
  let weather := [mkCsvDay (TimeText t) (Some 100) (Some (5 # 1))] in
  let s := initial_store bike weather in
  let pages := [StationsPage ["Winter"]; PeakPage ["member"]; WeatherPage;
                RecommendationsPage; PeakPage []] in
  nth_error (session 0 1 pages s) 0%nat = nth_error s 0%nat /\
  nth_error (session 0 1 pages s) 1%nat = nth_error s 1%nat /\
  List.length (session 0 1 pages s) = 9%nat.
Proof.
  intros t bike weather s pages.
  assert (Hbike : (0 < List.length s)%nat) by (simpl; lia).
  assert (Hweather : (1 < List.length s)%nat) by (simpl; lia).
  destruct (pages_keep_loaded_frames s 0 1 pages Hbike Hweather)
    as (_ & Hb & Hw & _).
  split; [exact Hb|]. split; [exact Hw | reflexivity].
Defined.

(** ** The pages on the store compute what the pages on tables compute *)

Lemma nth_error_last {A : Type} (s : list A) (x : A) :
  nth_error (s ++ [x]) (List.length s) = Some x.
Proof.
  rewrite nth_error_app2 by lia. now rewrite Nat.sub_diag.
Qed.

Lemma update_nth_last {A : Type} (s : list A) (x y : A) :
  update_nth (List.length s) y (s ++ [x]) = s ++ [y].
Proof. induction s as [|a s IH]; simpl; [reflexivity | now rewrite IH]. Qed.

Lemma trip_row_eta (rows : list TripRow) :
  map (fun r => mkTrip (to_datetime (started_at r)) (start_station_name r)
                       (member_casual r)) rows = rows.
Proof.
  rewrite <- (map_id rows) at 2. apply map_ext. now intros [a b c].
Qed.

Lemma day_row_eta (rows : list WeatherRow) : df_plot rows = rows.
Proof.
  unfold df_plot. rewrite <- (map_id rows) at 2. apply map_ext.
  now intros [a b c].
Qed.

Lemma bind_ok {A B : Type} (m : M A) (k : A -> M B) (s s' : Store) (a : A) :
  m s = (Ok a, s') -> bind m k s = k a s'.
Proof. intros H. unfold bind. now rewrite H. Qed.

Lemma read_ok (s : Store) (l : nat) (f : Frame) :
  nth_error s l = Some f -> read l s = (Ok f, s).
Proof. intros H. unfold read. now rewrite H. Qed.

Lemma copy_ok (s : Store) (l : nat) (f : Frame) :
  nth_error s l = Some f -> copy l s = (Ok (List.length s), s ++ [f]).
Proof.
  intros H. unfold copy. now rewrite (bind_ok _ _ _ _ _ (read_ok _ _ _ H)).
Qed.

Lemma update_last_ok (s : Store) (f f' : Frame) (g : Frame -> result Frame) :
  g f = Ok f' ->
  update (List.length s) g (s ++ [f]) = (Ok tt, s ++ [f']).
Proof.
  intros H. unfold update. now rewrite nth_error_last, H, update_nth_last.
Qed.

Lemma assign_started_at_id (T : list TripRow)
  (cols : list (string * list pyval)) :
  assign_started_at (mkFrame (Trips T) cols) = Ok (mkFrame (Trips T) cols).
Proof. unfold assign_started_at. simpl. now rewrite trip_row_eta. Qed.

Lemma assign_date_id (rows : list WeatherRow)
  (cols : list (string * list pyval)) :
  assign_date (mkFrame (Days rows) cols) = Ok (mkFrame (Days rows) cols).
Proof. unfold assign_date. simpl. now rewrite day_row_eta. Qed.

Ltac run_with lemma := erewrite bind_ok by (apply lemma; eauto); simpl.

Lemma weather_page_run_fig (s : Store) (df_weather : nat)
  (rows : list WeatherRow) (cols : list (string * list pyval)) :
  nth_error s df_weather = Some (mkFrame (Days rows) cols) ->
  fst (weather_page_run df_weather s) = Ok (fig rows).
Proof.
  intros Hs. unfold weather_page_run.
  run_with copy_ok.
  erewrite bind_ok by (apply update_last_ok, assign_date_id).
  erewrite bind_ok by (apply read_ok, nth_error_last).
  simpl. unfold fig. now rewrite day_row_eta.
Qed.

Lemma stations_page_run_pure (s : Store) (df_bike : nat) (T : list TripRow)
  (season_filter : list string) :
  nth_error s df_bike = Some (mkFrame (Trips T) []) ->
  fst (stations_page_run df_bike season_filter s)
  = stations_page T season_filter.
Proof.
  intros Hs. unfold stations_page_run.
  run_with copy_ok.
  erewrite bind_ok by (apply update_last_ok, assign_started_at_id).
  erewrite bind_ok by (apply read_ok, nth_error_last).
  simpl.
  erewrite bind_ok.
  2:{ erewrite bind_ok by (apply update_last_ok; reflexivity).
      apply update_last_ok. reflexivity. }
  erewrite bind_ok by (apply read_ok, nth_error_last).
  erewrite bind_ok by reflexivity.
  erewrite bind_ok by reflexivity.
  erewrite bind_ok by (apply read_ok, nth_error_last).
  simpl. unfold stations_page, filter_season. now rewrite !map_map.
Qed.

Lemma peak_page_run_pure (s : Store) (df_bike : nat) (T : list TripRow)
  (user_filter : list string) :
  nth_error s df_bike = Some (mkFrame (Trips T) []) ->
  fst (peak_page_run df_bike user_filter s) = peak_page T user_filter.
Proof.
  intros Hs. unfold peak_page_run.
  erewrite bind_ok by (apply read_ok, Hs).
  simpl.
  erewrite bind_ok by reflexivity.
  erewrite bind_ok by reflexivity.
  erewrite bind_ok by (apply copy_ok, nth_error_last).
  erewrite bind_ok by (apply update_last_ok; reflexivity).
  erewrite bind_ok by (apply read_ok, nth_error_last).
  reflexivity.
Qed.

Lemma recommendations_page_run_pure (s : Store) (df_bike : nat)
  (T : list TripRow) (cols : list (string * list pyval)) :
  nth_error s df_bike = Some (mkFrame (Trips T) cols) ->
  fst (recommendations_page_run df_bike s) = recommendations_page T.
Proof.
  intros Hs. unfold recommendations_page_run.
  now erewrite bind_ok by (apply read_ok, Hs).
Qed.

(** * Further properties of the code *)

(** ** Counts add up to rows *)

Lemma sum_map_add {A : Type} (f g : A -> Z) (l : list A) :
  fold_right Z.add 0 (map (fun x => f x + g x) l)
  = fold_right Z.add 0 (map f l) + fold_right Z.add 0 (map g l).
Proof. induction l as [|x l IH]; simpl; lia. Qed.

Lemma present_In {A : Type} (col : list (option A)) (x : A) :
  In x (present col) <-> In (Some x) col.
Proof.
  induction col as [|[y|] col IH]; simpl; [tauto| |].
  - rewrite IH. split; intros [H|H]; auto; left; congruence.
  - rewrite IH. split; [auto|]. intros [H|H]; [discriminate|auto].
Qed.

Lemma present_length {A : Type} (col : list (option A)) :
  (List.length (present col) <= List.length col)%nat.
Proof. induction col as [|[y|] col IH]; simpl; lia. Qed.

Section CountSums.
Context {K : Type} (eqb : K -> K -> bool).
Hypothesis eqb_eq : forall a b, eqb a b = true <-> a = b.

Lemma sum_indicator (x : K) (keys : list K) :
  NoDup keys -> In x keys ->
  fold_right Z.add 0 (map (fun k => if eqb k x then 1 else 0) keys) = 1.
Proof.
  induction 1 as [|k keys Hk Hnd IH]; simpl; [contradiction|].
  intros [->|Hin].
  - rewrite (proj2 (eqb_eq x x) eq_refl).
    assert (Hzero : fold_right Z.add 0
                      (map (fun k => if eqb k x then 1 else 0) keys) = 0).
    { clear IH Hnd. induction keys as [|k keys IH]; simpl; [reflexivity|].
      destruct (eqb k x) eqn:E.
      - apply eqb_eq in E. subst. exfalso. apply Hk. now left.
      - rewrite IH; [reflexivity|]. intros H. apply Hk. now right. }
    lia.
  - destruct (eqb k x) eqn:E.
    + apply eqb_eq in E. subst. contradiction.
    + now rewrite IH.
Qed.

Lemma count_key_cons (k x : K) (l : list K) :
  count_key eqb k (x :: l) = (if eqb k x then 1 else 0) + count_key eqb k l.
Proof.
  unfold count_key. cbn [filter].
  destruct (eqb k x); cbn [List.length]; lia.
Qed.

(** Over keys that cover the column, each once, the counts add up to the
    length of the column. *)
Lemma sum_count_keys (keys l : list K) :
  NoDup keys -> (forall x, In x l -> In x keys) ->
  fold_right Z.add 0 (map (fun k => count_key eqb k l) keys)
  = Z.of_nat (List.length l).
Proof.
  intros Hnd. induction l as [|x l IH]; intros Hcover.
  - clear Hnd Hcover. simpl. induction keys; simpl; auto.
  - rewrite (map_ext _ (fun k => (if eqb k x then 1 else 0)
                                 + count_key eqb k l))
      by (intros; apply count_key_cons).
    rewrite sum_map_add, sum_indicator, IH.
    + cbn [List.length]. lia.
    + intros y Hy. apply Hcover. now right.
    + exact Hnd.
    + apply Hcover. now left.
Qed.

Lemma groupby_size_sum (le : K -> K -> bool) (col : list (option K)) :
  sum_counts (groupby_size eqb le col) = Z.of_nat (List.length (present col)).
Proof.
  unfold sum_counts, groupby_size. rewrite map_map. simpl.
  apply sum_count_keys.
  - eapply Permutation_NoDup;
      [apply Permutation_sym, sort_by_perm | apply (unique_NoDup _ eqb_eq)].
  - intros x Hx. now rewrite sort_by_In, (unique_In _ eqb_eq).
Qed.

End CountSums.

Lemma sum_counts_perm {K : Type} (a b : list (K * Z)) :
  Permutation a b -> sum_counts a = sum_counts b.
Proof.
  unfold sum_counts. induction 1; simpl; lia.
Qed.

Lemma sum_counts_firstn {K : Type} (n : nat) (rows : list (K * Z)) :
  Forall (fun r => 0 <= snd r) rows ->
  0 <= sum_counts (firstn n rows) <= sum_counts rows.
Proof.
  unfold sum_counts. intros H. revert n.
  induction H as [|r rows Hr Hrows IH]; intros [|n]; simpl; try lia.
  - specialize (IH 0%nat). simpl in IH. lia.
  - specialize (IH n). lia.
Qed.

Lemma count_occ_pos_of_In {A : Type} (dec : forall a b : A, {a = b} + {a <> b})
  (l : list A) (x : A) :
  In x l -> 1 <= Z.of_nat (count_occ dec l x).
Proof. intros H. apply (count_occ_In dec) in H. lia. Qed.

(** X1: the station counts account for every row that has a station,
    once: each count is at least 1 and the counts add up to the number of
    such rows.  The bars of the top 20 add up to at most the number of
    rows of the table, and to exactly the rows with a station when there
    are at most 20 distinct stations. *)
Theorem station_counts_add_up (T : list TripRow) :
  sum_counts (station_counts T) = Z.of_nat (List.length (stations_of T)) /\
  (forall s c, In (s, c) (station_counts T) -> 1 <= c) /\
  0 <= sum_counts (top20 T) <= Z.of_nat (List.length T) /\
  ((List.length (nodup string_dec (stations_of T)) <= 20)%nat ->
   sum_counts (top20 T) = Z.of_nat (List.length (stations_of T))).
Proof.
  assert (Hsum : sum_counts (station_counts T)
                 = Z.of_nat (List.length (stations_of T))).
  { unfold station_counts, stations_of.
    rewrite (groupby_size_sum _ string_eqb_eq).
    now rewrite present_map_filter_notna. }
  assert (Hpos : forall s c, In (s, c) (station_counts T) -> 1 <= c).
  { intros s c H. apply station_counts_In in H as [Hin ->].
    now apply count_occ_pos_of_In. }
  assert (Hsorted : sum_counts (sort_values_desc (station_counts T))
                    = Z.of_nat (List.length (stations_of T))).
  { rewrite <- Hsum. apply sum_counts_perm, sort_values_desc_perm. }
  split; [exact Hsum|]. split; [exact Hpos|]. split.
  - unfold top20, top_stations. rewrite head_nonneg by lia.
    pose proof (sum_counts_firstn (Z.to_nat 20)
                  (sort_values_desc (station_counts T))) as H.
    rewrite Hsorted in H.
    assert (Hlen : (List.length (stations_of T) <= List.length T)%nat).
    { unfold stations_of.
      etransitivity; [apply present_length|]. now rewrite length_map. }
    enough (0 <= sum_counts (firstn (Z.to_nat 20)
                               (sort_values_desc (station_counts T)))
            <= Z.of_nat (List.length (stations_of T))) by lia.
    apply H. apply Forall_forall. intros [s c] Hr.
    apply (Permutation_in _ (sort_values_desc_perm _)) in Hr.
    apply Hpos in Hr. simpl. lia.
  - intros Hfew. unfold top20, top_stations. rewrite head_nonneg by lia.
    rewrite firstn_all2; [exact Hsorted|].
    unfold sort_values_desc.
    rewrite sort_by_length, station_counts_length. lia.
Qed.

Lemma station_counts_add_up_witness :
  let t := mkTimestamp 2022 1 1 8 0 0 in
  let T := [mkTrip (Some t) (Some "A") (Some "member");
            mkTrip (Some t) None (Some "casual");
            mkTrip (Some t) (Some "A") (Some "member")] in
  sum_counts (top20 T) = 2.
Proof.
  intros t T.
  destruct (station_counts_add_up T) as (_ & _ & _ & Hfew).
  rewrite Hfew; [reflexivity|]. simpl. lia.
Defined.

(** ** The hourly distribution *)





Lemma hourly_empty (T : list TripRow) : hours_of T = [] -> hourly T = [].
Proof.
  intros H. unfold hourly. rewrite hourly_of_reset_index.
  unfold groupby_size. now rewrite hour_column_keys, H.
Qed.

(** X3: the hourly page raises exactly when no selected row has a
    timestamp, and then it is the ValueError of [idxmax]; the lookup by
    label never fails.  Otherwise it shows the hour and the count of a row
    of the distribution. *)
Theorem peak_page_outcome (df_bike : list TripRow) (user_filter : list string) :
  let selected := df2 df_bike user_filter in
  (hours_of selected = [] ->
   peak_page df_bike user_filter = Raise ValueError) /\
  (hours_of selected <> [] ->
   exists r,
     In r (hourly selected) /\
     peak_page df_bike user_filter
     = Ok (h_hour r, h_trips r,
           map (fun x => (h_hour x, h_trips x)) (hourly selected))) /\
  (forall e, peak_page df_bike user_filter = Raise e -> e = ValueError).
Proof.
  intros selected.
  assert (Hnone : hours_of selected = [] ->
                  peak_page df_bike user_filter = Raise ValueError).
  { intros H. unfold peak_page. fold selected. now rewrite hourly_empty. }
  assert (Hsome : hours_of selected <> [] ->
     exists r,
       In r (hourly selected) /\
       peak_page df_bike user_filter
       = Ok (h_hour r, h_trips r,
             map (fun x => (h_hour x, h_trips x)) (hourly selected))).
  { intros H. destruct (peak_row_spec selected H) as (r & Hpeak & Hin & Hc & _).
    exists r. split.
    - unfold peak_row, idxmax in Hpeak.
      destruct (first_max (hourly selected)) as [r'|] eqn:E; [|discriminate].
      destruct (first_max_split _ _ E) as (b & a & Hsplit & _).
      assert (Hr' : In r' (hourly selected))
        by (rewrite Hsplit; apply in_or_app; right; now left).
      rewrite (loc_label _ _ (hourly_labels_NoDup selected) Hr') in Hpeak.
      injection Hpeak as <-. exact Hr'.
    - unfold peak_page, peak_metrics. fold selected. now rewrite Hpeak. }
  split; [exact Hnone|]. split; [exact Hsome|].
  intros e He. destruct (hours_of selected) as [|h l] eqn:E.
  - rewrite Hnone in He by reflexivity. congruence.
  - destruct Hsome as (r & _ & Hok); [discriminate|]. congruence.
Qed.

Lemma peak_page_outcome_witness :
  let df := [mkTrip (Some (mkTimestamp 2022 1 1 8 0 0)) (Some "A") (Some "member");
             mkTrip (Some (mkTimestamp 2022 1 1 9 0 0)) (Some "A") (Some "casual")] in
  peak_page df ["rider"] = Raise ValueError /\
  exists r, peak_page df ["casual"] = Ok (h_hour r, h_trips r, [(9, 1)]).
Proof.
  intros df.
  destruct (peak_page_outcome df ["rider"]) as (Hnone & _).
  destruct (peak_page_outcome df ["casual"]) as (_ & Hsome & _).
  split; [apply Hnone; reflexivity|].
  destruct Hsome as (r & _ & Hok); [discriminate|].
  exists r. exact Hok.
Defined.

(** ** The selectors *)

Section LocallySorted.
Context {A : Type} (le : A -> A -> bool).
Hypothesis le_total : forall a b, le a b = false -> le b a = true.

Lemma insert_sorted_locally (x : A) (l : list A) :
  Sorted (fun a b => le a b = true) l ->
  Sorted (fun a b => le a b = true) (insert_sorted le x l).
Proof.
  induction 1 as [|y l Hs IH Hy]; simpl.
  - repeat constructor.
  - destruct (le x y) eqn:E.
    + repeat constructor; auto.
    + constructor; [exact IH|].
      destruct l as [|z l]; simpl.
      * constructor. now apply le_total.
      * destruct (le x z); constructor.
        -- now apply le_total.
        -- now apply HdRel_inv in Hy.
Qed.

Lemma sort_by_locally_sorted (l : list A) :
  Sorted (fun a b => le a b = true) (sort_by le l).
Proof.
  induction l as [|x l IH]; simpl; [constructor|].
  now apply insert_sorted_locally.
Qed.
End LocallySorted.

Lemma string_leb_total (a b : string) :
  String.leb a b = false -> String.leb b a = true.
Proof.
  intros H. destruct (String.leb_total a b) as [H'|H']; congruence.
Qed.

(** X4: the rider-type selector offers the rider types that occur, each
    once, in ascending order; with the default selection (all of them)
    the hourly page works on the rows that have a rider type, so a row
    without one is never counted there. *)
Theorem user_options_default (df_bike : list TripRow) :
  NoDup (user_options df_bike) /\
  Sorted (fun a b => String.leb a b = true) (user_options df_bike) /\
  (forall s, In s (user_options df_bike) <->
             exists r, In r df_bike /\ member_casual r = Some s) /\
  df2 df_bike (user_options df_bike)
  = filter (fun r => notna (member_casual r)) df_bike.
Proof.
  assert (Hin : forall s, In s (user_options df_bike) <->
                          exists r, In r df_bike /\ member_casual r = Some s).
  { intros s. unfold user_options.
    rewrite sort_by_In, (unique_In _ string_eqb_eq), present_In, in_map_iff.
    split; intros (r & H1 & H2); eauto. }
  split; [|split; [|split; [exact Hin|]]].
  - unfold user_options. eapply Permutation_NoDup;
      [apply Permutation_sym, sort_by_perm
      | apply (unique_NoDup _ string_eqb_eq)].
  - apply sort_by_locally_sorted, string_leb_total.
  - unfold df2. rewrite mask_rows_filter. apply filter_ext_in.
    intros r Hr. destruct (member_casual r) as [s|] eqn:E; simpl;
      [|reflexivity].
    apply existsb_exists. exists s. split; [|apply String.eqb_refl].
    apply Hin. eauto.
Qed.

Lemma user_options_default_witness :
  let t := mkTimestamp 2022 1 1 8 0 0 in
  let df := [mkTrip (Some t) (Some "A") (Some "member");
             mkTrip (Some t) (Some "B") None;
             mkTrip (Some t) (Some "A") (Some "casual")] in
  In "casual" (user_options df) /\
  List.length (df2 df (user_options df)) = 2%nat.
Proof.
  intros t df.
  destruct (user_options_default df) as (_ & _ & Hin & Hdefault).
  split.
  - apply Hin. exists (mkTrip (Some t) (Some "A") (Some "casual")).
    split; [simpl; auto | reflexivity].
  - rewrite Hdefault. reflexivity.
Defined.

(** X5: the season selector offers the seasons that occur in the table,
    each once, in ascending order, all among the four labels; the default
    selection (all of them) keeps every row. *)
Theorem season_options_default (df1 : list TripRow) :
  NoDup (season_options df1) /\
  Sorted (fun a b => String.leb a b = true) (season_options df1) /\
  (forall s, In s (season_options df1) <->
             exists r, In r df1 /\ season_cell r = s) /\
  incl (season_options df1) all_seasons /\
  filter_season (season_options df1) df1 = df1.
Proof.
  assert (Hin : forall s, In s (season_options df1) <->
                          exists r, In r df1 /\ season_cell r = s).
  { intros s. unfold season_options.
    rewrite sort_by_In, (unique_In _ string_eqb_eq), in_map_iff.
    split; intros (r & H1 & H2); eauto. }
  split; [|split; [|split; [exact Hin|split]]].
  - unfold season_options. eapply Permutation_NoDup;
      [apply Permutation_sym, sort_by_perm
      | apply (unique_NoDup _ string_eqb_eq)].
  - apply sort_by_locally_sorted, string_leb_total.
  - intros s Hs. apply Hin in Hs as (r & _ & <-).
    unfold season_cell, get_season.
    destruct (py_in _ [12; 1; 2]); [simpl; auto|].
    destruct (py_in _ [3; 4; 5]); [simpl; auto|].
    destruct (py_in _ [6; 7; 8]); simpl; auto.
  - apply filter_season_default.
Qed.

Lemma season_options_default_witness :
  let df := [mkTrip (Some (mkTimestamp 2022 1 1 8 0 0)) (Some "A") (Some "member");
             mkTrip (Some (mkTimestamp 2022 7 4 9 0 0)) (Some "B") (Some "casual")] in
  In "Summer" (season_options df) /\
  filter_season (season_options df) df = df.
Proof.
  intros df.
  destruct (season_options_default df) as (_ & _ & Hin & _ & Hdefault).
  split; [|exact Hdefault].
  apply Hin.
  exists (mkTrip (Some (mkTimestamp 2022 7 4 9 0 0)) (Some "B") (Some "casual")).
  split; [simpl; auto | reflexivity].
Defined.

Lemma season_one_hot (r : TripRow) :
  (Nat.b2n (isin (PyStr (season_cell r)) ["Winter"])
   + Nat.b2n (isin (PyStr (season_cell r)) ["Spring"])
   + Nat.b2n (isin (PyStr (season_cell r)) ["Summer"])
   + Nat.b2n (isin (PyStr (season_cell r)) ["Autumn"]) = 1)%nat.
Proof.
  unfold season_cell, get_season.
  destruct (py_in (month_cell r) [12; 1; 2]); [reflexivity|].
  destruct (py_in (month_cell r) [3; 4; 5]); [reflexivity|].
  destruct (py_in (month_cell r) [6; 7; 8]); reflexivity.
Qed.

(** X6: the four seasons split a table: every row is kept by the filter
    of exactly one season, so the four filtered tables have as many rows
    together as the table, and selecting several seasons keeps the rows
    of each. *)
Theorem seasons_partition (T : list TripRow) :
  (forall r, In r T ->
     exists s, In s all_seasons /\ In r (filter_season [s] T) /\
               forall s', In r (filter_season [s'] T) -> s' = s) /\
  (List.length (filter_season ["Winter"] T)
   + List.length (filter_season ["Spring"] T)
   + List.length (filter_season ["Summer"] T)
   + List.length (filter_season ["Autumn"] T) = List.length T)%nat /\
  (forall sel r, In r (filter_season sel T) <->
                 In r T /\ In (season_cell r) sel).
Proof.
  assert (Hmem : forall sel r, In r (filter_season sel T) <->
                               In r T /\ In (season_cell r) sel).
  { intros sel r. rewrite filter_season_filter, filter_In. simpl.
    rewrite existsb_exists. split.
    - intros (Hr & s & Hs & Heq). apply String.eqb_eq in Heq. subst. auto.
    - intros (Hr & Hs). split; [exact Hr|]. exists (season_cell r).
      split; [exact Hs | apply String.eqb_refl]. }
  split; [|split; [|exact Hmem]].
  - intros r Hr. exists (season_cell r). split; [|split].
    + pose proof (isin_all_seasons (month_cell r)) as H. unfold isin in H.
      apply existsb_exists in H as (s & Hs & Heq).
      apply String.eqb_eq in Heq. unfold season_cell. now rewrite Heq.
    + apply Hmem. split; [exact Hr | now left].
    + intros s' H. apply Hmem in H as [_ [H|[]]]. exact H.
  - clear Hmem. rewrite !filter_season_filter.
    induction T as [|r T IH]; [reflexivity|].
    cbn [filter]. pose proof (season_one_hot r) as H.
    destruct (isin (PyStr (season_cell r)) ["Winter"]),
             (isin (PyStr (season_cell r)) ["Spring"]),
             (isin (PyStr (season_cell r)) ["Summer"]),
             (isin (PyStr (season_cell r)) ["Autumn"]);
      cbn [Nat.b2n List.length] in *; lia.
Qed.

Lemma seasons_partition_witness :
  let r := mkTrip (Some (mkTimestamp 2022 7 4 9 0 0)) (Some "B") (Some "casual") in
  let T := [mkTrip (Some (mkTimestamp 2022 1 1 8 0 0)) (Some "A") (Some "member"); r] in
  exists s, In s all_seasons /\ In r (filter_season [s] T).
Proof.
  intros r T.
  destruct (seasons_partition T) as (Hone & _).
  destruct (Hone r) as (s & Hs & Hr & _); [simpl; auto|].
  exists s. auto.
Defined.

(** ** The bar colour *)

(** X7: the bar colour never fails and is always a colour of the
    palette: the colour of the season when exactly one of the four
    seasons is selected, and the Winter blue for every other selection
    (none, several, or a single label the palette does not have). *)
Theorem bar_color_palette (season_filter : list string) :
  In (bar_color season_filter) (map snd season_colors) /\
  (forall s, season_filter = [s] -> In s all_seasons ->
             In (s, bar_color season_filter) season_colors) /\
  (List.length season_filter <> 1%nat ->
   bar_color season_filter = bar_color ["Winter"]) /\
  (forall s, season_filter = [s] -> ~ In s all_seasons ->
             bar_color season_filter = bar_color ["Winter"]).
Proof.
  assert (Hone : forall s,
             In s all_seasons -> In (s, bar_color [s]) season_colors).
  { intros s Hs. simpl in Hs.
    repeat (destruct Hs as [<-|Hs]; [simpl; auto 6|]). contradiction. }
  assert (Hother : forall s, ~ In s all_seasons ->
                             bar_color [s] = bar_color ["Winter"]).
  { intros s Hs. unfold bar_color, dict_get, selected_season, season_colors.
    cbn [find fst snd].
    repeat match goal with
           | |- context [String.eqb ?a s] =>
               destruct (String.eqb_spec a s) as [<-|_];
               [exfalso; apply Hs; simpl; auto 6|]
           end.
    reflexivity. }
  assert (Hmany : List.length season_filter <> 1%nat ->
                  bar_color season_filter = bar_color ["Winter"]).
  { destruct season_filter as [|a [|b l]]; simpl; intros H;
      solve [reflexivity | congruence]. }
  split; [|split; [|split]]; auto.
  - destruct season_filter as [|s [|b l]];
      try (rewrite Hmany by (simpl; lia); simpl; auto).
    destruct (in_dec string_dec s all_seasons) as [Hs|Hs].
    + apply in_map_iff. exists (s, bar_color [s]). auto.
    + rewrite Hother by exact Hs. simpl. auto.
  - intros s -> Hs. auto.
  - intros s -> Hs. auto.
Qed.

Lemma bar_color_palette_witness :
  In ("Summer", bar_color ["Summer"]) season_colors /\
  bar_color ["Summer"; "Spring"] = bar_color ["Winter"].
Proof.
  split.
  - destruct (bar_color_palette ["Summer"]) as (_ & Hone & _).
    apply Hone; [reflexivity | simpl; auto].
  - destruct (bar_color_palette ["Summer"; "Spring"]) as (_ & _ & Hmany & _).
    apply Hmany. simpl. lia.
Defined.

(** ** The texts of the metrics *)

Lemma py_str_string_of_int (z : Z) :
  py_str z = NilZero.string_of_int (Z.to_int z).
Proof. destruct z; reflexivity. Qed.

(** [str] and reading back. *)
Lemma read_int_py_str (z : Z) : read_int (py_str z) = Some z.
Proof.
  unfold read_int. rewrite py_str_string_of_int, NilZero.isi.
  - simpl. now rewrite DecimalZ.of_to.
  - destruct z; simpl; try discriminate.
    intros [= H]. now apply DecimalPos.Unsigned.to_uint_nonnil in H.
  - destruct z; simpl; try discriminate.
    intros [= H]. now apply DecimalPos.Unsigned.to_uint_nonnil in H.
Qed.

Lemma uint_digits_no_comma (d : Decimal.uint) :
  filter not_comma (list_ascii_of_string (NilEmpty.string_of_uint d))
  = list_ascii_of_string (NilEmpty.string_of_uint d).
Proof. induction d; simpl; congruence. Qed.

Lemma digits_of_no_comma (z : Z) :
  filter not_comma (list_ascii_of_string (digits_of z))
  = list_ascii_of_string (digits_of z).
Proof.
  unfold digits_of, NilZero.string_of_uint.
  destruct (N.to_uint (Z.abs_N z)); try apply uint_digits_no_comma.
  reflexivity.
Qed.

(** Grouping only adds commas. *)
Lemma group3_filter (l : list ascii) :
  filter not_comma (group3 l) = filter not_comma l.
Proof.
  assert (H : forall n l, (List.length l <= n)%nat ->
                          filter not_comma (group3 l) = filter not_comma l).
  { clear l. induction n as [|n IH]; intros l Hl.
    - destruct l; [reflexivity | simpl in Hl; lia].
    - destruct l as [|a [|b [|c [|d more]]]]; try reflexivity.
      change (group3 (a :: b :: c :: d :: more))
        with (a :: b :: c :: ","%char :: group3 (d :: more)).
      cbn [filter]. rewrite IH by (simpl in *; lia).
      reflexivity. }
  apply (H (List.length l)). lia.
Qed.

(** The number of commas: one for every full group of three digits that
    has a digit before it. *)
Lemma group3_length (l : list ascii) :
  List.length (group3 l)
  = (List.length l + (List.length l - 1) / 3)%nat.
Proof.
  assert (H : forall n l, (List.length l <= n)%nat ->
     List.length (group3 l) = (List.length l + (List.length l - 1) / 3)%nat).
  { clear l. induction n as [|n IH]; intros l Hl.
    - destruct l; [reflexivity | simpl in Hl; lia].
    - destruct l as [|a [|b [|c [|d more]]]]; try reflexivity.
      change (group3 (a :: b :: c :: d :: more))
        with (a :: b :: c :: ","%char :: group3 (d :: more)).
      cbn [List.length]. rewrite IH by (simpl in *; lia).
      cbn [List.length].
      replace (S (S (S (S (List.length more)))) - 1)%nat
        with (S (List.length more) - 1 + 1 * 3)%nat by lia.
      rewrite Nat.div_add by lia. lia. }
  apply (H (List.length l)). lia.
Qed.

Lemma strip_commas_grouped (z : Z) :
  strip_commas
    (string_of_list_ascii
       (rev (group3 (rev (list_ascii_of_string (digits_of z))))))
  = digits_of z.
Proof.
  unfold strip_commas. rewrite list_ascii_of_string_of_list_ascii.
  rewrite filter_rev, group3_filter, <- filter_rev, rev_involutive.
  now rewrite digits_of_no_comma, string_of_list_ascii_of_string.
Qed.

Lemma length_list_ascii_of_string (s : string) :
  List.length (list_ascii_of_string s) = String.length s.
Proof. induction s; simpl; congruence. Qed.

(** X8: the text of a count with thousands separators reads back as the
    count: dropping its commas gives [str] of the number, and that parses
    to the number.  A count of [k] digits gets [(k - 1) / 3] commas. *)
Theorem format_comma_reads_back (z : Z) :
  strip_commas (format_comma z) = py_str z /\
  read_int (strip_commas (format_comma z)) = Some z /\
  String.length (format_comma z)
  = (String.length (py_str z) + (String.length (digits_of z) - 1) / 3)%nat.
Proof.
  assert (Hstrip : strip_commas (format_comma z) = py_str z).
  { unfold format_comma, py_str. destruct (z <? 0).
    - change (("-" ++ ?s)%string) with (String "-" s).
      unfold strip_commas at 1. cbn [list_ascii_of_string filter].
      change (not_comma "-") with true. cbn [string_of_list_ascii].
      f_equal. apply strip_commas_grouped.
    - apply strip_commas_grouped. }
  split; [exact Hstrip|]. split; [rewrite Hstrip; apply read_int_py_str|].
  assert (Hlen : String.length
            (string_of_list_ascii
               (rev (group3 (rev (list_ascii_of_string (digits_of z))))))
          = (String.length (digits_of z)
             + (String.length (digits_of z) - 1) / 3)%nat).
  { rewrite <- length_list_ascii_of_string,
      list_ascii_of_string_of_list_ascii.
    now rewrite length_rev, group3_length, length_rev,
      length_list_ascii_of_string. }
  unfold format_comma, py_str. destruct (z <? 0).
  - change (("-" ++ ?s)%string) with (String "-" s).
    cbn [String.length]. rewrite Hlen. lia.
  - exact Hlen.
Qed.

Lemma string_length_append (a b : string) :
  String.length (a ++ b)%string = (String.length a + String.length b)%nat.
Proof. induction a; simpl; congruence. Qed.

(** X9: for an hour from 0 to 23 (for any number from 0 to 99) the text
    of the peak-hour metric is two digits that read back as the hour,
    followed by ":00"; a number of three digits or more is shown in
    full. *)
Theorem peak_hour_text_reads_back (r : HourlyRow) (Hh : 0 <= h_hour r <= 99) :
  peak_hour_text r = (format_02d (h_hour r) ++ ":00")%string /\
  String.length (format_02d (h_hour r)) = 2%nat /\
  read_int (format_02d (h_hour r)) = Some (h_hour r) /\
  String.length (peak_hour_text r) = 5%nat.
Proof.
  assert (Hall : forallb two_digits_ok (seq 0 100) = true) by reflexivity.
  rewrite forallb_forall in Hall.
  specialize (Hall (Z.to_nat (h_hour r))).
  rewrite in_seq in Hall. unfold two_digits_ok in Hall.
  rewrite Z2Nat.id in Hall by lia.
  assert (Hok : (0 <= Z.to_nat (h_hour r) < 0 + 100)%nat) by lia.
  apply Hall in Hok. apply andb_prop in Hok as [Hlen Hread].
  apply Nat.eqb_eq in Hlen.
  destruct (read_int (format_02d (h_hour r))) as [z|] eqn:E; [|discriminate].
  apply Z.eqb_eq in Hread. subst z.
  repeat split; auto.
  unfold peak_hour_text. rewrite string_length_append, Hlen. reflexivity.
Qed.

Lemma peak_hour_text_reads_back_witness :
  peak_hour_text (mkHourly 0 8 2) = "08:00".
Proof.
  destruct (peak_hour_text_reads_back (mkHourly 0 8 2)) as (H & _);
    [simpl; lia|].
  rewrite H. reflexivity.
Defined.

(** ** The first version of the script *)





Lemma stations_of_load (csv : list CsvTrip) :
  (forall r, In r csv -> csv_start_station_name r <> None ->
             exists t, csv_started_at r = TimeText t) ->
  stations_of (load_bike_data csv)
  = present (map csv_start_station_name csv).
Proof.
  unfold stations_of. rewrite load_bike_data_filter, map_map. simpl.
  induction csv as [|r csv IH]; intros H; simpl; [reflexivity|].
  unfold valid_trip at 1.
  destruct (csv_start_station_name r) as [n|] eqn:E.
  - destruct (H r) as (t & Ht); [now left | congruence |].
    rewrite Ht. simpl. rewrite E. f_equal.
    apply IH. intros r' Hr'. apply H. now right.
  - destruct (csv_started_at r); simpl;
      apply IH; intros r' Hr'; apply H; now right.
Qed.

Lemma groupby_size_present {K : Type} (eqb le : K -> K -> bool)
  (a b : list (option K)) :
  present a = present b -> groupby_size eqb le a = groupby_size eqb le b.
Proof. unfold groupby_size. now intros ->. Qed.

(** X11: the two scripts rank the stations alike on a file in which
    every row with a station name has a start time that parses: the top
    20 of the first script is the top 20 of the second with the four
    seasons selected.  (The first script counts a row whose start time
    does not parse, the second has dropped it.) *)
Theorem top20_versions_agree (csv : list CsvTrip)
  (Hparse : forall r, In r csv -> csv_start_station_name r <> None ->
                      exists t, csv_started_at r = TimeText t) :
  StDashboard.top20 (StDashboard.df_trips csv)
  = top20 (filter_season all_seasons (load_bike_data csv)) /\
  stations_page (load_bike_data csv) all_seasons
  = Ok (StDashboard.top20 (StDashboard.df_trips csv)).
Proof.
  assert (H : StDashboard.top20 (StDashboard.df_trips csv)
              = top20 (load_bike_data csv)).
  { unfold StDashboard.top20, StDashboard.df_trips, top20, top_stations,
      station_counts.
    do 2 f_equal. apply groupby_size_present.
    rewrite !present_map_filter_notna.
    fold (stations_of (load_bike_data csv)).
    now rewrite stations_of_load. }
  unfold stations_page. rewrite filter_season_all, H. auto.
Qed.

Lemma top20_versions_agree_witness :
  let t := mkTimestamp 2022 1 1 8 0 0 in
  let csv := [mkCsvTrip (TimeText t) (Some "A") (Some "member");
              mkCsvTrip Blank None (Some "casual");
              mkCsvTrip (TimeText t) (Some "A") None] in
  StDashboard.top20 (StDashboard.df_trips csv)
  = top20 (filter_season all_seasons (load_bike_data csv)).
Proof.
  intros t csv. apply (top20_versions_agree csv).
  intros r [<-|[<-|[<-|[]]]] H; simpl in *; try congruence; eauto.
Defined.

(** ** What the pages show does not depend on the pages shown before *)

Lemma fst_bind_ret {A B : Type} (m : M A) (f : A -> B) (s : Store) :
  fst (bind m (fun x => ret (f x)) s)
  = match fst (m s) with
    | Ok a => Ok (f a)
    | Raise e => Raise e
    end.
Proof. unfold bind, ret. now destruct (m s) as [[a|e] s']. Qed.

Lemma render_shown (s : Store) (df_bike df_weather : nat)
  (B : list TripRow) (W : list WeatherRow) (page : Page) :
  nth_error s df_bike = Some (mkFrame (Trips B) []) ->
  nth_error s df_weather = Some (mkFrame (Days W) []) ->
  fst (render df_bike df_weather page s) = shown B W page.
Proof.
  intros Hb Hw. destruct page; simpl; rewrite fst_bind_ret.
  - now rewrite (weather_page_run_fig _ _ _ _ Hw).
  - now rewrite (stations_page_run_pure _ _ _ _ Hb).
  - now rewrite (peak_page_run_pure _ _ _ _ Hb).
  - now rewrite (recommendations_page_run_pure _ _ _ _ Hb).
Qed.

(** X12: with the two loaded tables in the store, a page shows what the
    functions on tables compute from them, and it shows the same after
    any pages have been rendered before it: the working copies and the
    columns added to them by earlier pages do not reach it. *)
Theorem render_independent_of_history (s : Store) (df_bike df_weather : nat)
  (B : list TripRow) (W : list WeatherRow)
  (Hbike : nth_error s df_bike = Some (mkFrame (Trips B) []))
  (Hweather : nth_error s df_weather = Some (mkFrame (Days W) []))
  (history : list Page) (page : Page) :
  fst (render df_bike df_weather page s) = shown B W page /\
  fst (render df_bike df_weather page (session df_bike df_weather history s))
  = shown B W page.
Proof.
  split; [now apply render_shown|].
  assert (Hlb : (df_bike < List.length s)%nat)
    by (apply nth_error_Some; congruence).
  assert (Hlw : (df_weather < List.length s)%nat)
    by (apply nth_error_Some; congruence).
  pose proof (keeps_session (List.length s) df_bike df_weather history s
                (le_n _)) as Hkeep.
  apply render_shown.
  - rewrite <- Hbike. now apply (firstn_nth_error (List.length s)).
  - rewrite <- Hweather. now apply (firstn_nth_error (List.length s)).
Qed.

Lemma render_independent_of_history_witness :
  let t := mkTimestamp 2022 1 1 8 0 0 in
  let bike := [mkCsvTrip (TimeText t) (Some "A") (Some "member");
               mkCsvTrip (TimeText t) (Some "B") (Some "casual")] in
  let weather := [mkCsvDay (TimeText t) (Some 100) (Some (5 # 1))] in
  let s := initial_store bike weather in
  fst (render 0 1 (StationsPage ["Winter"])
         (session 0 1 [StationsPage []; PeakPage ["member"]; PeakPage []] s))
  = Ok (ShownRanking [("A", 1); ("B", 1)]).
Proof.
  intros t bike weather s.
  destruct (render_independent_of_history s 0 1
              (load_bike_data bike) (load_daily_weather_data weather)
              eq_refl eq_refl
              [StationsPage []; PeakPage ["member"]; PeakPage []]
              (StationsPage ["Winter"])) as [_ H].
  rewrite H. reflexivity.
Defined.

(** ** The loaded tables *)




(** X14: every point of the weather figure has its date, its ride count
    and its temperature: a row of the file that lacks one of them gives
    no point, so the two lines have no gap and as many points as there
    are valid rows in the file. *)
Theorem weather_figure_complete (csv : list CsvDay) :
  (forall p, In p (fig (load_daily_weather_data csv)) ->
     exists d n q, p = (Some d, Some n, Some q)) /\
  List.length (fig (load_daily_weather_data csv))
  = List.length (filter valid_day csv) /\
  (List.length (fig (load_daily_weather_data csv)) <= List.length csv)%nat.
Proof.
  rewrite fig_load. split; [|split].
  - intros p Hp. apply in_map_iff in Hp as (r & <- & Hr).
    apply filter_In in Hr as [_ Hr]. unfold valid_day in Hr.
    unfold csv_point.
    destruct (csv_date r) as [t|s|]; try discriminate.
    destruct (csv_bike_rides_daily r) as [n|]; try discriminate.
    destruct (csv_avgTemp r) as [q|]; try discriminate.
    simpl. eauto.
  - apply length_map.
  - rewrite length_map. apply filter_length_le.
Qed.

Lemma weather_figure_complete_witness :
  let t := mkTimestamp 2022 1 1 0 0 0 in
  let csv := [mkCsvDay (TimeText t) (Some 100) (Some (5 # 1));
              mkCsvDay (TimeText t) None (Some (6 # 1))] in
  List.length (fig (load_daily_weather_data csv)) = 1%nat /\
  exists d n q, (Some t, Some 100, Some (5 # 1)) = (Some d, Some n, Some q).
Proof.
  intros t csv.
  destruct (weather_figure_complete csv) as (Hall & Hlen & _).
  split; [rewrite Hlen; reflexivity|].
  apply Hall. simpl. auto.
Defined.

(** X15: the station named on the summary page has as many rows as the
    tallest bar of the unfiltered ranking, whichever of several stations
    of equal count the two sorts put first. *)
Theorem top_station_matches_first_bar (df_bike : list TripRow)
  (Hne : stations_of df_bike <> []) :
  exists name s c rest,
    top_station df_bike = Ok name /\
    top20 (filter_season all_seasons df_bike) = (s, c) :: rest /\
    c = Z.of_nat (count_occ string_dec (stations_of df_bike) name) /\
    c = Z.of_nat (count_occ string_dec (stations_of df_bike) s).
Proof.
  rewrite filter_season_all.
  unfold top_station, top20, top_stations. rewrite head_nonneg by lia.
  pose proof (sort_values_desc_perm (station_counts df_bike)) as Hperm.
  destruct (sort_values_desc (station_counts df_bike)) as [|[s c] l] eqn:E.
  - exfalso. apply Hne, stations_of_nodup_nil, length_zero_iff_nil.
    rewrite <- station_counts_length.
    apply Permutation_length in Hperm. simpl in Hperm. now rewrite <- Hperm.
  - exists s, s, c, (firstn 19 l).
    assert (Hin : In (s, c) (station_counts df_bike))
      by (apply (Permutation_in _ Hperm); now left).
    apply station_counts_In in Hin as [_ ->]. auto.
Qed.

Lemma top_station_matches_first_bar_witness :
  let t := mkTimestamp 2022 1 1 8 0 0 in
  let df := [mkTrip (Some t) (Some "A") (Some "member");
             mkTrip (Some t) (Some "B") (Some "casual");
             mkTrip (Some t) (Some "B") (Some "member")] in
  exists name s c rest,
    top_station df = Ok name /\
    top20 (filter_season all_seasons df) = (s, c) :: rest /\
    c = Z.of_nat (count_occ string_dec (stations_of df) name).
Proof.
  intros t df.
  destruct (top_station_matches_first_bar df) as (name & s & c & rest & H);
    [discriminate|].
  exists name, s, c, rest. tauto.
Defined.

(** ** Months held as floats *)

Lemma py_eq_int_float (q : Q) (z k : Z) :
  (q == inject_Z z)%Q ->
  py_eq_int (PyFloat q) k = py_eq_int (PyInt z) k.
Proof.
  intros Hq. simpl.
  destruct (Z.eqb_spec z k) as [->|Hne].
  - now apply Qeq_bool_iff.
  - destruct (Qeq_bool q (inject_Z k)) eqn:E; [|reflexivity].
    apply Qeq_bool_iff in E. rewrite Hq in E.
    apply (proj1 (inject_Z_injective z k)) in E. contradiction.
Qed.

(** X16: the season of a month does not depend on how pandas holds the
    month: a float equal to an integer month gets the label of that
    integer (the column is float when a timestamp is missing), and a
    float that is no integer gets Autumn. *)
Theorem get_season_float_month (q : Q) :
  (forall z, (q == inject_Z z)%Q ->
             get_season (PyFloat q) = get_season (PyInt z)) /\
  ((forall z, ~ (q == inject_Z z)%Q) -> get_season (PyFloat q) = "Autumn").
Proof.
  split.
  - intros z Hq. unfold get_season, py_in. cbn [existsb].
    now rewrite !(py_eq_int_float q z _ Hq).
  - intros Hq. unfold get_season, py_in. cbn [existsb py_eq_int].
    repeat match goal with
           | |- context [Qeq_bool q (inject_Z ?k)] =>
               let E := fresh "E" in
               destruct (Qeq_bool q (inject_Z k)) eqn:E;
               [apply Qeq_bool_iff in E; exfalso; exact (Hq _ E)|]
           end.
    reflexivity.
Qed.

Lemma get_season_float_month_witness :
  get_season (PyFloat (14 # 2)) = "Summer".
Proof.
  rewrite (proj1 (get_season_float_month (14 # 2)) 7); reflexivity.
Defined.

(** ** Routing *)

(** X17: every option of the page selector is routed to a block of the
    script and nothing else is: the intro page renders two blocks (the
    title block of the chain and the purpose block after it), each other
    option exactly one block, its own, and a name that is no option
    renders nothing. *)
Theorem route_covers_options (page : string) :
  (In page page_options <-> route page <> []) /\
  (page = "Intro page" <-> route page = [IntroTitle; IntroPurpose]) /\
  (page <> "Intro page" -> In page page_options ->
   exists b, route page = [b] /\ b <> IntroTitle /\ b <> IntroPurpose) /\
  (forall page', In page page_options -> In page' page_options ->
                 route page = route page' -> page = page').
Proof.
  assert (Hcases : In page page_options \/ ~ In page page_options)
    by (destruct (in_dec string_dec page page_options); auto).
  assert (Hnot : ~ In page page_options -> route page = []).
  { intros H. unfold route.
    repeat match goal with
           | |- context [String.eqb page ?a] =>
               destruct (String.eqb_spec page a) as [->|_];
               [exfalso; apply H; simpl; auto 10|]
           end.
    reflexivity. }
  split; [|split; [|split]].
  - destruct Hcases as [H|H].
    + split; [|auto]. intros _. simpl in H.
      repeat (destruct H as [<-|H]; [discriminate|]). contradiction.
    + rewrite (Hnot H). tauto.
  - split; [now intros ->|].
    destruct Hcases as [H|H]; [|rewrite (Hnot H); discriminate].
    simpl in H.
    repeat (destruct H as [<-|H]; [solve [reflexivity | discriminate]|]).
    contradiction.
  - intros Hne H. simpl in H.
    repeat (destruct H as [<-|H];
            [solve [congruence
                   | eexists; split; [reflexivity|split; discriminate]]|]).
    contradiction.
  - intros page' H H'. simpl in H, H'.
    repeat (destruct H as [<-|H]; [|]);
      try contradiction;
      repeat (destruct H' as [<-|H']; [|]);
      try contradiction; try reflexivity; discriminate.
Qed.

Lemma route_covers_options_witness :
  exists b, route "Peak hours and demand" = [b] /\ b <> IntroTitle.
Proof.
  destruct (route_covers_options "Peak hours and demand")
    as (_ & _ & Hone & _).
  destruct Hone as (b & Hb & Hnt & _); [discriminate | simpl; auto 10|].
  exists b. auto.
Defined.
